(** * EMA anomaly detector ([anomaly_detection.py])

    A shallow embedding of [validate_data], of the class
    [EMAAnomalyDetector] ([__init__], [update_ema]), of the two loops that
    call it and of the generator of samples, with the properties of the
    online detection core.

    Python is dynamically typed: every attribute of the detector and every
    sample is a Python object.  The embedding keeps that: a [value] is
    [None], a number or a string, each operator the method uses is a
    partial function on [value] that raises where Python does, and
    [update_ema] runs in a state-and-exception monad over the detector's
    attributes, so that an exception raised half way leaves the assignments
    made before it in place, as in Python.

    Numbers.  The numbers are carried by one constructor [PyNum] over a type
    [F] with the operations of the class [Arith].  What holds of the method
    whatever the arithmetic is stated for every instance of the class.  Two
    instances are given:
    - [float_arith], the kernel's binary64 floats: the arithmetic Python
      runs on [float], rounding, overflow, [infinity] and [nan] included;
      it evaluates.  It is [float_arith_with] at the correctly rounded
      square, the one operation the method leaves to the C library;
    - [R_arith], the real numbers, without rounding, overflow or NaN: used
      where the method computes exactly and as a second reading of the
      scenario. *)

From Stdlib Require Import Reals Lra String List Bool.
From Stdlib Require Import Floats.PrimFloat.
From Stdlib Require Floats.FloatOps Floats.SpecFloat Floats.FloatAxioms.
From Stdlib Require Import ZArith PeanoNat Lia.
Import ListNotations.

Set Implicit Arguments.

(** ** Exceptions *)

Inductive exn : Type :=
| TypeError
| ZeroDivisionError
| OverflowError
| DataStreamException.

Inductive result (A : Type) : Type :=
| Ok : A -> result A
| Raise : exn -> result A.

Arguments Ok {A} _.
Arguments Raise {A} _.

(** ** Numbers *)

(** The operations [update_ema] applies to numbers.  [gtb x y] is [x > y];
    [is_zero] is the test behind [ZeroDivisionError]; [pow2 x] is [x ** 2]
    on a Python [float], which raises [OverflowError] where the square of a
    finite number is out of range; [np_pow2 x] is [x ** 2] on a
    [np.float64], which raises nothing. *)
Class Arith (F : Type) : Type := {
  zero : F;
  one : F;
  add : F -> F -> F;
  sub : F -> F -> F;
  mul : F -> F -> F;
  div : F -> F -> F;
  pow2 : F -> result F;
  np_pow2 : F -> F;
  sqrt : F -> F;
  abs : F -> F;
  gtb : F -> F -> bool;
  is_zero : F -> bool
}.

(** Over the reals [sqrt] is the square root on arguments that are not
    negative and 0 below; [np.sqrt] gives [nan] below 0.  The two agree
    wherever the detector takes a root with [alpha] in [0, 1], the argument
    being a sum of two products of numbers that are not negative. *)
Definition Rgtb (x y : R) : bool := if Rgt_dec x y then true else false.
Definition Reqb0 (x : R) : bool := if Req_dec_T x 0%R then true else false.

#[export] Instance R_arith : Arith R := {|
  zero := 0%R;
  one := 1%R;
  add := Rplus;
  sub := Rminus;
  mul := Rmult;
  div := Rdiv;
  pow2 := fun x => Ok (x * x)%R;
  np_pow2 := fun x => (x * x)%R;
  sqrt := R_sqrt.sqrt;
  abs := Rabs;
  gtb := Rgtb;
  is_zero := Reqb0
|}.

(** [x ** 2] on a binary64 [float], as CPython's [float_pow] computes it
    with the exponent 2: [nan] gives itself, an infinity gives [inf], a
    zero gives [0.0], and every other [x] gives C's [pow(|x|, 2.0)], with
    [OverflowError] where that is infinite.  C's [pow] is the parameter
    [pw]; it is not bound to return the correctly rounded square. *)
Definition float_pow2_with (pw : float -> float) (x : float) : result float :=
  if PrimFloat.is_nan x then Ok x
  else if PrimFloat.is_infinity x then Ok PrimFloat.infinity
  else if PrimFloat.eqb x PrimFloat.zero then Ok PrimFloat.zero
  else
    let y := pw (PrimFloat.abs x) in
    if PrimFloat.is_infinity y then Raise OverflowError else Ok y.

(** Binary64 arithmetic over a C library: [pw x] is [pow(x, 2.0)] as Python
    calls it and [np_pw x] is [pow(x, 2.0)] as numpy calls it on a
    [np.float64]; the other operations are those of IEEE 754, which Python
    and numpy leave to the processor. *)
Definition float_arith_with (pw np_pw : float -> float) : Arith float := {|
  zero := PrimFloat.zero;
  one := PrimFloat.one;
  add := PrimFloat.add;
  sub := PrimFloat.sub;
  mul := PrimFloat.mul;
  div := PrimFloat.div;
  pow2 := float_pow2_with pw;
  np_pow2 := np_pw;
  sqrt := PrimFloat.sqrt;
  abs := PrimFloat.abs;
  gtb := fun x y => PrimFloat.ltb y x;
  is_zero := fun x => PrimFloat.eqb x PrimFloat.zero
|}.

(** The correctly rounded square, the value of [pow(x, 2.0)] wherever the
    square is a double and within one unit in the last place of it
    elsewhere. *)
Definition rounded_square (x : float) : float := PrimFloat.mul x x.

Definition float_pow2 : float -> result float := float_pow2_with rounded_square.

#[export] Instance float_arith : Arith float := float_arith_with rounded_square rounded_square.

(** ** Python objects and operators *)

Inductive value (F : Type) : Type :=
| PyNone : value F
| PyNum : F -> value F
| PyStr : string -> value F.

Arguments PyNone {F}.
Arguments PyNum {F} _.
Arguments PyStr {F} _.

Definition is_None {F} (v : value F) : bool :=
  match v with PyNone => true | _ => false end.

(** [isinstance(value, (int, float))] *)
Definition is_number {F} (v : value F) : bool :=
  match v with PyNum _ => true | _ => false end.

Section Operators.
Context {F : Type} `{Arith F}.

(** [x + y]: numbers add, strings concatenate. *)
Definition py_add (x y : value F) : result (value F) :=
  match x, y with
  | PyNum a, PyNum b => Ok (PyNum (add a b))
  | PyStr s, PyStr t => Ok (PyStr (s ++ t))
  | _, _ => Raise TypeError
  end.

Definition py_sub (x y : value F) : result (value F) :=
  match x, y with
  | PyNum a, PyNum b => Ok (PyNum (sub a b))
  | _, _ => Raise TypeError
  end.

(** [x * y].  A product with a string or [None] raises [TypeError], as it
    does in Python when the other factor is a [float]; the repetition
    [n * s] of a string by an [int] is not modelled. *)
Definition py_mul (x y : value F) : result (value F) :=
  match x, y with
  | PyNum a, PyNum b => Ok (PyNum (mul a b))
  | _, _ => Raise TypeError
  end.

(** [x / y] on Python numbers: a zero divisor raises. *)
Definition py_div (x y : value F) : result (value F) :=
  match x, y with
  | PyNum a, PyNum b =>
      if is_zero b then Raise ZeroDivisionError else Ok (PyNum (div a b))
  | _, _ => Raise TypeError
  end.

(** [x ** 2] on a sample's deviation, a Python [float]: it raises
    [OverflowError] where [pow2] does. *)
Definition py_pow2 (x : value F) : result (value F) :=
  match x with
  | PyNum a =>
      match pow2 a with
      | Ok y => Ok (PyNum y)
      | Raise e => Raise e
      end
  | _ => Raise TypeError
  end.

(** [self.std ** 2].  Where it is a number, [self.std] is the [int] 0 of
    the first call or the [np.float64] [np.sqrt] returned: its power
    overflows to [inf] without raising. *)
Definition np_float_pow2 (x : value F) : result (value F) :=
  match x with
  | PyNum a => Ok (PyNum (np_pow2 a))
  | _ => Raise TypeError
  end.

(** [np.sqrt(x)] *)
Definition np_sqrt (x : value F) : result (value F) :=
  match x with
  | PyNum a => Ok (PyNum (sqrt a))
  | _ => Raise TypeError
  end.

(** [abs(x)] *)
Definition py_abs (x : value F) : result (value F) :=
  match x with
  | PyNum a => Ok (PyNum (abs a))
  | _ => Raise TypeError
  end.

(** [x > y]: numbers by value, strings in lexicographic order. *)
Definition py_gt (x y : value F) : result bool :=
  match x, y with
  | PyNum a, PyNum b => Ok (gtb a b)
  | PyStr s, PyStr t =>
      Ok (match String.compare s t with Gt => true | _ => false end)
  | _, _ => Raise TypeError
  end.

(** ** [validate_data] *)

Definition validate_data (v : value F) : result bool :=
  if is_number v then Ok true else Raise DataStreamException.

(** ** The detector *)

(** The four attributes [__init__] creates, in its order. *)
Record EMAAnomalyDetector : Type := mkDetector {
  ema : value F;
  alpha : value F;
  std : value F;
  threshold : value F
}.

(** [__init__]: the attributes after it has run.  It stores its two
    arguments as they are, whatever they are. *)
Definition init (alpha0 threshold0 : value F) : EMAAnomalyDetector :=
  {| ema := PyNone; alpha := alpha0; std := PyNone; threshold := threshold0 |}.

(** The call [EMAAnomalyDetector(alpha, threshold)]: nothing in [__init__]
    raises, so the call always evaluates to the new instance. *)
Definition construct (alpha0 threshold0 : value F) : result EMAAnomalyDetector :=
  Ok (init alpha0 threshold0).

Definition set_ema (v : value F) (d : EMAAnomalyDetector) : EMAAnomalyDetector :=
  {| ema := v; alpha := alpha d; std := std d; threshold := threshold d |}.

Definition set_std (v : value F) (d : EMAAnomalyDetector) : EMAAnomalyDetector :=
  {| ema := ema d; alpha := alpha d; std := v; threshold := threshold d |}.

(** Computations over the detector's attributes that may raise: the state
    reached is returned in both cases. *)
Definition M (A : Type) : Type :=
  EMAAnomalyDetector -> result A * EMAAnomalyDetector.

Definition ret {A} (a : A) : M A := fun d => (Ok a, d).

Definition bind {A B} (m : M A) (k : A -> M B) : M B :=
  fun d =>
    match m d with
    | (Ok a, d') => k a d'
    | (Raise e, d') => (Raise e, d')
    end.

Definition lift {A} (r : result A) : M A := fun d => (r, d).

Definition attr (f : EMAAnomalyDetector -> value F) : M (value F) :=
  fun d => (Ok (f d), d).

Definition assign (f : value F -> EMAAnomalyDetector -> EMAAnomalyDetector)
    (v : value F) : M unit :=
  fun d => (Ok tt, f v d).

End Operators.

Arguments EMAAnomalyDetector F : clear implicits.
Arguments M F A : clear implicits.

Declare Scope py_scope.
Delimit Scope py_scope with py.
Notation "x <- m ;; k" := (bind m (fun x => k))
  (at level 61, m at next level, right associativity) : py_scope.
Notation "m ;; k" := (bind m (fun _ => k))
  (at level 61, right associativity) : py_scope.
Open Scope py_scope.

Section UpdateEma.
Context {F : Type} `{Arith F}.

(** The [if]/[else] of [update_ema]: the two assignments of either branch. *)
Definition update_state (value0 : value F) : M F unit :=
  e <- attr ema ;;
  if is_None e then
    assign set_ema value0 ;;
    assign set_std (PyNum zero)
  else
    (* self.ema = self.alpha * value + (1 - self.alpha) * self.ema *)
    a <- attr alpha ;;
    t1 <- lift (py_mul a value0) ;;
    a <- attr alpha ;;
    w <- lift (py_sub (PyNum one) a) ;;
    e <- attr ema ;;
    t2 <- lift (py_mul w e) ;;
    c <- lift (py_add t1 t2) ;;
    assign set_ema c ;;
    (* self.std = np.sqrt(self.alpha * (value - self.ema) ** 2
                          + (1 - self.alpha) * self.std ** 2) *)
    a <- attr alpha ;;
    e <- attr ema ;;
    dv <- lift (py_sub value0 e) ;;
    sq <- lift (py_pow2 dv) ;;
    t1 <- lift (py_mul a sq) ;;
    a <- attr alpha ;;
    w <- lift (py_sub (PyNum one) a) ;;
    s <- attr std ;;
    sq <- lift (np_float_pow2 s) ;;
    t2 <- lift (py_mul w sq) ;;
    r <- lift (py_add t1 t2) ;;
    s <- lift (np_sqrt r) ;;
    assign set_std s.

(** [z_score = (value - self.ema) / (self.std if self.std > 0 else 1)] *)
Definition z_score (value0 : value F) : M F (value F) :=
  e <- attr ema ;;
  dv <- lift (py_sub value0 e) ;;
  s <- attr std ;;
  pos <- lift (py_gt s (PyNum zero)) ;;
  dn <- (if pos : bool then attr std else ret (PyNum one)) ;;
  lift (py_div dv dn).

(** The body of the [try]. *)
Definition update_ema_try (value0 : value F) : M F bool :=
  update_state value0 ;;
  z <- z_score value0 ;;
  az <- lift (py_abs z) ;;
  t <- attr threshold ;;
  lift (py_gt az t).

(** [update_ema]: both handlers ([except ZeroDivisionError] and
    [except Exception]) return [False]; the message each prints to the
    console is not part of the model. *)
Definition update_ema (value0 : value F) (d : EMAAnomalyDetector F)
    : bool * EMAAnomalyDetector F :=
  match update_ema_try value0 d with
  | (Ok b, d') => (b, d')
  | (Raise ZeroDivisionError, d') => (false, d')
  | (Raise _, d') => (false, d')
  end.

(** One call per sample, in arrival order: the flags returned and the
    detector after the last call. *)
Fixpoint feed (d : EMAAnomalyDetector F) (vs : list (value F))
    : list bool * EMAAnomalyDetector F :=
  match vs with
  | [] => ([], d)
  | v :: vs' =>
      let (b, d1) := update_ema v d in
      let (bs, d2) := feed d1 vs' in
      (b :: bs, d2)
  end.

End UpdateEma.

(** ** The formulas of the specification, over the reals *)

Module Formulas.
Local Open Scope R_scope.

(** [new_center = alpha*value + (1-alpha)*center] *)
Definition new_center (a c v : R) : R := a * v + (1 - a) * c.

(** [new_spread = sqrt(alpha*(value - new_center)^2 + (1-alpha)*spread^2)] *)
Definition new_spread (a c s v : R) : R :=
  R_sqrt.sqrt (a * (v - new_center a c v) ^ 2 + (1 - a) * s ^ 2).

(** The score against the committed center and spread: the denominator is
    the spread when it is positive and 1 otherwise. *)
Definition score_of (c s v : R) : R :=
  if Rgt_dec s 0 then (v - c) / s else (v - c) / 1.

Definition new_score (a c s v : R) : R :=
  score_of (new_center a c v) (new_spread a c s v) v.
End Formulas.

(** ** Detector states and the statements examined *)

(** A detector all of whose attributes are real numbers: configuration
    [a], [t], center [c], spread [s]. *)
Definition initialized (a t c s : R) : EMAAnomalyDetector R :=
  {| ema := PyNum c; alpha := PyNum a; std := PyNum s; threshold := PyNum t |}.

(** The same over binary64. *)
Definition initialized64 (a t c s : float) : EMAAnomalyDetector float :=
  {| ema := PyNum c; alpha := PyNum a; std := PyNum s; threshold := PyNum t |}.

(** The double nearest to 0.1, the value of Python's literal [0.1]. *)
Definition tenth : float := 0x1.999999999999ap-4%float.

(** A valid sample in the specification's sense: a number, and finite. *)
Definition valid_sample (x : value float) : bool :=
  match x with
  | PyNum y => PrimFloat.is_finite y
  | _ => false
  end.

(** A valid configuration in the specification's sense: [alpha] a finite
    number in (0, 1], [threshold] a finite number that is not negative. *)
Definition valid_alpha (a : float) : bool :=
  PrimFloat.is_finite a && PrimFloat.ltb 0 a && PrimFloat.leb a 1.

Definition valid_threshold (t : float) : bool :=
  PrimFloat.is_finite t && PrimFloat.leb 0 t.

Definition valid_configuration (a t : value float) : bool :=
  match a, t with
  | PyNum x, PyNum y => valid_alpha x && valid_threshold y
  | _, _ => false
  end.

(** The statement of invalid-input isolation, on binary64: an invalid
    sample [x] between valid samples [xa] and [xb] changes no state, and the
    value its call returns is one no call with a valid sample returns. *)
Definition invalid_sample_isolated : Prop :=
  forall (a t xa xb : float) (x : value float),
    valid_alpha a = true -> valid_threshold t = true ->
    PrimFloat.is_finite xa = true -> PrimFloat.is_finite xb = true ->
    valid_sample x = false ->
    let d0 := init (PyNum a) (PyNum t) in
    let d1 := snd (update_ema (PyNum xa) d0) in
    snd (feed d0 [PyNum xa; x; PyNum xb]) = snd (feed d0 [PyNum xa; PyNum xb])
    /\ (forall v : float, PrimFloat.is_finite v = true ->
          fst (update_ema x d1) <> fst (update_ema (PyNum v) d1)).

(** The statement that construction rejects an invalid configuration: no
    instance comes out of it. *)
Definition invalid_configuration_rejected : Prop :=
  forall a t : value float,
    valid_configuration a t = false ->
    forall d, construct a t <> Ok d.



(** The statement of the recurrence for every later finite sample, on
    binary64: the call commits the new center and the new spread and flags
    exactly when the absolute score exceeds the threshold. *)
Definition recurrence_on_every_sample : Prop :=
  forall a t c s v : float,
    valid_alpha a = true -> valid_threshold t = true ->
    PrimFloat.is_finite c = true ->
    PrimFloat.is_finite s = true -> PrimFloat.leb 0 s = true ->
    PrimFloat.is_finite v = true ->
    let c' := (a * v + (1 - a) * c)%float in
    let s' :=
      PrimFloat.sqrt (a * ((v - c') * (v - c')) + (1 - a) * (s * s))%float in
    let z :=
      if PrimFloat.ltb 0 s' then ((v - c') / s')%float
      else ((v - c') / 1)%float in
    let r := update_ema (PyNum v) (initialized64 a t c s) in
    ema (snd r) = PyNum c'
    /\ std (snd r) = PyNum s'
    /\ (fst r = true <-> PrimFloat.ltb t (PrimFloat.abs z) = true).

(** The statement that a zero threshold flags exactly the samples whose
    score is not zero ([score != 0]), on binary64. *)
Definition zero_threshold_flags_nonzero_scores : Prop :=
  forall a c s v z : float,
    valid_alpha a = true ->
    PrimFloat.is_finite c = true ->
    PrimFloat.is_finite s = true -> PrimFloat.leb 0 s = true ->
    PrimFloat.is_finite v = true ->
    let r := update_ema (PyNum v) (initialized64 a 0 c s) in
    fst (z_score (PyNum v) (snd r)) = Ok (PyNum z) ->
    (fst r = true <-> PrimFloat.eqb z 0 = false).

(** *** Samples that are numpy arrays *)

(** What a caller may pass: one of the objects above or a one-dimensional
    array of floats; and what comes back: a boolean or an array of
    booleans. *)
Inductive sample (F : Type) : Type :=
| Scalar : value F -> sample F
| Ndarray : list F -> sample F.

Arguments Scalar {F} _.
Arguments Ndarray {F} _.

Inductive returned : Type :=
| ReturnsBool : bool -> returned
| ReturnsArray : list bool -> returned.

(** The first call on a fresh detector with a numeric threshold [t].  With
    an array the [if] branch stores it as center and sets the spread to 0;
    the score [(value - self.ema) / 1] and [abs(z_score) > self.threshold]
    are then taken element by element, nothing raises, and the array of
    the comparisons is what [update_ema] returns. *)
Definition first_call_returns {F} `{Arith F} (x : sample F) (alpha0 : value F)
    (t : F) : returned :=
  match x with
  | Scalar v => ReturnsBool (fst (update_ema v (init alpha0 (PyNum t))))
  | Ndarray xs =>
      ReturnsArray (map (fun y => gtb (abs (div (sub y y) one)) t) xs)
  end.

(** The statement that the method returns a boolean for every input. *)
Definition update_ema_always_boolean : Prop :=
  forall (x : sample float) (alpha0 : value float) (t : float),
    exists b, first_call_returns x alpha0 t = ReturnsBool b.

(** *** Samples that are Python ints *)

(** [float(n)]: the nearest double, ties to even, and [OverflowError]
    beyond the range of [float]. *)
Definition float_of_int (n : Z) : result float :=
  let x :=
    FloatOps.SF2Prim
      (SpecFloat.binary_normalize FloatOps.prec FloatOps.emax n 0 false) in
  if PrimFloat.is_infinity x then Raise OverflowError else Ok x.

(** A number as a caller may pass it. *)
Inductive py_number : Type :=
| PyFloat : float -> py_number
| PyInt : Z -> py_number.

(** [update_ema] with a number on a detector whose center is set and whose
    attributes are floats.  An int is converted at each of its uses
    ([self.alpha * value], [value - self.ema]), the first of which comes
    before every assignment: where the conversion raises, nothing is
    assigned and the handler returns [False]; elsewhere the call goes as
    with [float(value)]. *)
Definition update_ema_number (x : py_number) (d : EMAAnomalyDetector float)
    : bool * EMAAnomalyDetector float :=
  match x with
  | PyFloat y => update_ema (PyNum y) d
  | PyInt n =>
      match float_of_int n with
      | Ok y => update_ema (PyNum y) d
      | Raise _ => (false, d)
      end
  end.

Definition finite_number (x : py_number) : bool :=
  match x with
  | PyFloat y => PrimFloat.is_finite y
  | PyInt _ => true
  end.

(** [center == sample], an int being read through [float]. *)
Definition center_equals (c : float) (x : py_number) : Prop :=
  match x with
  | PyFloat y => PrimFloat.eqb c y = true
  | PyInt n => exists y, float_of_int n = Ok y /\ PrimFloat.eqb c y = true
  end.

(** The statement that with [alpha = 1] the center follows every finite
    sample: after the call the center equals the sample, the spread is 0
    and the sample is not flagged. *)
Definition alpha_one_follows_every_sample : Prop :=
  forall (t c : float) (x : py_number),
    valid_threshold t = true -> PrimFloat.is_finite c = true ->
    finite_number x = true ->
    exists c',
      update_ema_number x (initialized64 1 t c 0)
      = (false, initialized64 1 t c' 0)
      /\ center_equals c' x.

(** ** One call *)

Section Steps.
Local Open Scope R_scope.
Import Formulas.

Lemma Rgtb_true (x y : R) : Rgtb x y = true <-> x > y.
Proof.
  unfold Rgtb. destruct (Rgt_dec x y); split; intros; try easy.
Qed.

Lemma Rgtb_false (x y : R) : Rgtb x y = false <-> x <= y.
Proof.
  unfold Rgtb. destruct (Rgt_dec x y); split; intros; try easy; lra.
Qed.

Lemma Reqb0_false (x : R) : x <> 0 -> Reqb0 x = false.
Proof.
  intros Hx. unfold Reqb0. destruct (Req_dec_T x 0); [contradiction | reflexivity].
Qed.

(** The score reads the attributes and assigns none. *)
Lemma z_score_state {F} `{Arith F} (v : value F) (d : EMAAnomalyDetector F) :
  snd (z_score v d) = d.
Proof.
  unfold z_score, bind, attr, lift, ret; simpl.
  destruct (py_sub v (ema d)); simpl; [|reflexivity].
  destruct (py_gt (std d) (PyNum zero)) as [[|]|]; reflexivity.
Qed.

(** So the state a call leaves is the one its [if]/[else] leaves. *)
Lemma update_ema_state {F} `{Arith F} (v : value F) (d : EMAAnomalyDetector F) :
  snd (update_ema v d) = snd (update_state v d).
Proof.
  unfold update_ema, update_ema_try, bind at 1.
  destruct (update_state v d) as [[[]|e] d1]; simpl; [|destruct e; reflexivity].
  unfold bind, attr, lift.
  pose proof (z_score_state v d1) as Hz.
  destruct (z_score v d1) as [[z|e] d2]; simpl in *; subst d2;
    [|destruct e; reflexivity].
  destruct (py_abs z) as [az|e]; [|destruct e; reflexivity].
  destruct (py_gt az (threshold d1)) as [b|e]; [|destruct e]; reflexivity.
Qed.

(** The first call on a fresh detector, whatever the configuration holds:
    the state it commits. *)
Lemma first_call_state {F} `{Arith F} (a t v : value F) :
  snd (update_ema v (init a t)) =
  {| ema := v; alpha := a; std := PyNum zero; threshold := t |}.
Proof. rewrite update_ema_state. reflexivity. Qed.

(** The first call on a fresh detector with a numeric sample and threshold. *)
Lemma first_call_R (a : value R) (t v : R) :
  update_ema (PyNum v) (init a (PyNum t)) =
  (Rgtb (Rabs ((v - v) / 1)) t,
   {| ema := PyNum v; alpha := a; std := PyNum 0; threshold := PyNum t |}).
Proof.
  unfold update_ema, update_ema_try, update_state, z_score, bind, attr,
    assign, lift, ret, init; simpl.
  replace (Rgtb 0 0) with false by (symmetry; apply Rgtb_false; lra).
  simpl. rewrite Reqb0_false by lra. reflexivity.
Qed.

(** A later call with a numeric sample, all four attributes being numbers:
    the flag returned and the state committed. *)
Lemma later_call_R (a t c s v : R) :
  update_ema (PyNum v) (initialized a t c s) =
  (Rgtb (Rabs (new_score a c s v)) t,
   initialized a t (new_center a c v) (new_spread a c s v)).
Proof.
  unfold update_ema, update_ema_try, update_state, z_score, bind, attr,
    assign, lift, ret, initialized; simpl.
  unfold new_score, score_of, new_spread, new_center.
  replace ((v - (a * v + (1 - a) * c)) ^ 2)
    with ((v - (a * v + (1 - a) * c)) * (v - (a * v + (1 - a) * c))) by ring.
  replace (s ^ 2) with (s * s) by ring.
  set (c' := a * v + (1 - a) * c).
  set (s' := R_sqrt.sqrt (a * ((v - c') * (v - c')) + (1 - a) * (s * s))).
  unfold Rgtb at 1.
  destruct (Rgt_dec s' 0) as [Hpos | Hnpos]; simpl.
  - rewrite Reqb0_false by lra. reflexivity.
  - rewrite Reqb0_false by lra. reflexivity.
Qed.

(** The state after a stream that ends with [v] is the state one call with
    [v] leaves from the state after the stream before it. *)
Lemma feed_snoc {F} `{Arith F} (d : EMAAnomalyDetector F) (vs : list (value F))
    (v : value F) :
  feed d (vs ++ [v]) =
  (fst (feed d vs) ++ [fst (update_ema v (snd (feed d vs)))],
   snd (update_ema v (snd (feed d vs)))).
Proof.
  revert d. induction vs as [|x vs IH]; intros d; simpl.
  - destruct (update_ema v d); reflexivity.
  - destruct (update_ema x d) as [b d1]. rewrite IH.
    destruct (feed d1 vs); reflexivity.
Qed.

End Steps.

(** ** Samples that are not numbers *)

Section NonNumbers.
Context {F : Type} `{Arith F}.

(** On a detector that has seen a sample, the first product
    [self.alpha * value] raises before anything is assigned. *)
Lemma update_ema_skips (x : value F) (d : EMAAnomalyDetector F) :
  is_number x = false -> is_None (ema d) = false ->
  update_ema x d = (false, d).
Proof.
  intros Hx He.
  unfold update_ema, update_ema_try, update_state, bind, attr, lift; simpl.
  rewrite He.
  destruct (alpha d), x; simpl in *; try discriminate; reflexivity.
Qed.

(** Whatever the detector holds, a call with a sample that is not a number
    ends in a handler. *)
Lemma update_ema_try_raises (x : value F) (d : EMAAnomalyDetector F) :
  is_number x = false -> exists e, fst (update_ema_try x d) = Raise e.
Proof.
  intros Hx.
  unfold update_ema_try, update_state, z_score, bind, attr, assign, lift; simpl.
  destruct (ema d) eqn:He; simpl.
  - destruct x; simpl in *; try discriminate; exists TypeError; reflexivity.
  - destruct (alpha d), x; simpl in *; try discriminate;
      exists TypeError; reflexivity.
  - destruct (alpha d), x; simpl in *; try discriminate;
      exists TypeError; reflexivity.
Qed.

(** Both handlers return [False]. *)
Lemma update_ema_handlers (x : value F) (d : EMAAnomalyDetector F) (e : exn) :
  fst (update_ema_try x d) = Raise e ->
  update_ema x d = (false, snd (update_ema_try x d)).
Proof.
  unfold update_ema. destruct (update_ema_try x d) as [[b|e'] d']; simpl.
  - discriminate.
  - intros _. destruct e'; reflexivity.
Qed.

Lemma update_ema_returns (x : value F) (d : EMAAnomalyDetector F) (b : bool) :
  fst (update_ema_try x d) = Ok b ->
  update_ema x d = (b, snd (update_ema_try x d)).
Proof.
  unfold update_ema. destruct (update_ema_try x d) as [[b'|e'] d']; simpl.
  - intros [= ->]. reflexivity.
  - discriminate.
Qed.

(** [validate_data] lets every number through, and nothing else. *)
Lemma validate_data_numbers (x : value F) :
  validate_data x = Ok true <-> is_number x = true.
Proof.
  unfold validate_data. destruct (is_number x); split; intros; try easy.
Qed.

(** A call that completes has compared the absolute score, computed from
    the attributes it leaves, with a numeric threshold. *)
Lemma update_ema_try_completes (x : value F) (d : EMAAnomalyDetector F)
    (b : bool) :
  fst (update_ema_try x d) = Ok b ->
  exists z t,
    fst (z_score x (snd (update_ema_try x d))) = Ok (PyNum z)
    /\ threshold (snd (update_ema_try x d)) = PyNum t
    /\ b = gtb (abs z) t.
Proof.
  unfold update_ema_try, bind.
  destruct (update_state x d) as [[[]|e] d1]; cbn [fst snd]; [|discriminate].
  unfold attr, lift.
  pose proof (z_score_state x d1) as Hz.
  destruct (z_score x d1) as [[z|e] d2] eqn:Hzs; cbn [snd] in Hz; subst d2;
    cbn [fst snd]; [|discriminate].
  destruct z as [|z|z]; cbn [py_abs fst snd]; try discriminate.
  destruct (threshold d1) as [|t|t] eqn:Ht; cbn [py_gt fst snd];
    try discriminate.
  intros [= <-]. exists z, t. rewrite Hzs. repeat split; reflexivity.
Qed.

(** No call assigns [alpha] or [threshold]. *)
Lemma update_state_keeps (x : value F) (d : EMAAnomalyDetector F) :
  alpha (snd (update_state x d)) = alpha d
  /\ threshold (snd (update_state x d)) = threshold d.
Proof.
  destruct d as [e a s t].
  unfold update_state, bind, attr, assign, lift; simpl.
  destruct e as [|c|c]; simpl; [split; reflexivity| |].
  - destruct a as [|a|a], x as [|v|v]; simpl; try (split; reflexivity).
    destruct (pow2 (sub v (add (mul a v) (mul (sub one a) c)))); simpl;
      [|split; reflexivity].
    destruct s; simpl; split; reflexivity.
  - destruct a as [|a|a], x as [|v|v]; simpl; split; reflexivity.
Qed.

Lemma update_ema_keeps (x : value F) (d : EMAAnomalyDetector F) :
  alpha (snd (update_ema x d)) = alpha d
  /\ threshold (snd (update_ema x d)) = threshold d.
Proof. rewrite update_ema_state. apply update_state_keeps. Qed.

End NonNumbers.

(** A non-finite float is a number to [validate_data]. *)
Lemma validate_data_infinity : validate_data (PyNum infinity) = Ok true.
Proof. reflexivity. Qed.

(** The low-variance scenario of the specification, in binary64:
    [alpha = 0.5], [threshold = 2], samples 10, 12, 11, 13, 12; no call
    returns [True]. *)
Lemma low_variance_run :
  fst (feed (init (PyNum 0.5%float) (PyNum 2%float))
         (map PyNum [10; 12; 11; 13; 12]%float))
  = [false; false; false; false; false].
Proof. vm_compute. reflexivity. Qed.

(** ** Particular calls, over the reals *)

Section RealCalls.
Local Open Scope R_scope.
Import Formulas.

(** The score a call computed, read back from the state it left. *)
Lemma z_score_R (a t c s v : R) :
  fst (z_score (PyNum v) (initialized a t c s)) = Ok (PyNum (score_of c s v)).
Proof.
  unfold z_score, bind, attr, lift, ret, initialized, score_of; simpl.
  unfold Rgtb. destruct (Rgt_dec s 0); simpl;
    rewrite Reqb0_false by lra; reflexivity.
Qed.

Lemma score_of_flat (c v : R) : score_of c 0 v = v - c.
Proof.
  unfold score_of. destruct (Rgt_dec 0 0); [lra | field].
Qed.

(** A sample equal to the center of a detector whose spread is 0. *)
Lemma settled_call (a t c : R) :
  0 <= t ->
  update_ema (PyNum c) (initialized a t c 0) = (false, initialized a t c 0).
Proof.
  intros Ht. rewrite later_call_R.
  assert (Hc : new_center a c c = c) by (unfold new_center; ring).
  assert (Hs : new_spread a c 0 c = 0).
  { unfold new_spread. rewrite Hc.
    replace (a * (c - c) ^ 2 + (1 - a) * 0 ^ 2) with 0 by ring.
    apply sqrt_0. }
  unfold new_score. rewrite Hc, Hs, score_of_flat.
  replace (c - c) with 0 by ring. rewrite Rabs_R0.
  f_equal. apply Rgtb_false. exact Ht.
Qed.

Lemma settled_feed (a t c : R) (n : nat) :
  0 <= t ->
  feed (initialized a t c 0) (repeat (PyNum c) n) =
  (repeat false n, initialized a t c 0).
Proof.
  intros Ht. induction n as [|n IH]; simpl; [reflexivity|].
  rewrite settled_call by exact Ht. rewrite IH. reflexivity.
Qed.

(** The first call on a fresh detector whose threshold is a real number
    that is not negative. *)
Lemma fresh_call_R (a : value R) (t v : R) :
  0 <= t ->
  update_ema (PyNum v) (init a (PyNum t)) =
  (false, {| ema := PyNum v; alpha := a; std := PyNum 0; threshold := PyNum t |}).
Proof.
  intros Ht. rewrite first_call_R. f_equal.
  apply Rgtb_false. replace ((v - v) / 1) with 0 by field.
  rewrite Rabs_R0. exact Ht.
Qed.

(** A constant stream from a fresh detector. *)
Lemma flat_prefix_R (a t c : R) (n : nat) :
  0 <= t ->
  feed (init (PyNum a) (PyNum t)) (repeat (PyNum c) (S n)) =
  (repeat false (S n), initialized a t c 0).
Proof.
  intros Ht. simpl. rewrite fresh_call_R by exact Ht.
  fold (initialized a t c 0). rewrite settled_feed by exact Ht. reflexivity.
Qed.

End RealCalls.

(** ** Facts of binary64 *)

Section Binary64.
Import FloatOps SpecFloat FloatAxioms.
Local Open Scope float_scope.

Lemma SF_nan : Prim2SF nan = S754_nan.
Proof. reflexivity. Qed.

Lemma SF_one : Prim2SF 1 = S754_finite false 4503599627370496 (-52).
Proof. reflexivity. Qed.

Lemma SF_zero : Prim2SF 0 = S754_zero false.
Proof. reflexivity. Qed.

Lemma mul_nan_r (x : float) : x * nan = nan.
Proof.
  apply Prim2SF_inj. rewrite mul_spec, SF_nan.
  destruct (Prim2SF x); reflexivity.
Qed.

Lemma mul_nan_l (x : float) : nan * x = nan.
Proof.
  apply Prim2SF_inj. rewrite mul_spec, SF_nan.
  destruct (Prim2SF x); reflexivity.
Qed.

Lemma add_nan_r (x : float) : x + nan = nan.
Proof.
  apply Prim2SF_inj. rewrite add_spec, SF_nan.
  destruct (Prim2SF x); reflexivity.
Qed.

Lemma add_nan_l (x : float) : nan + x = nan.
Proof.
  apply Prim2SF_inj. rewrite add_spec, SF_nan.
  destruct (Prim2SF x); reflexivity.
Qed.

Lemma sub_nan_r (x : float) : x - nan = nan.
Proof.
  apply Prim2SF_inj. rewrite sub_spec, SF_nan.
  destruct (Prim2SF x); reflexivity.
Qed.

Lemma ltb_nan_r (x : float) : PrimFloat.ltb x nan = false.
Proof.
  rewrite ltb_spec, SF_nan. destruct (Prim2SF x); reflexivity.
Qed.

Lemma ltb_nan_l (x : float) : PrimFloat.ltb nan x = false.
Proof.
  rewrite ltb_spec, SF_nan. destruct (Prim2SF x); reflexivity.
Qed.

(** A finite float is a zero or has a mantissa and an exponent. *)
Lemma finite_cases (x : float) :
  PrimFloat.is_finite x = true ->
  (exists s, Prim2SF x = S754_zero s)
  \/ (exists s m e, Prim2SF x = S754_finite s m e).
Proof.
  unfold PrimFloat.is_finite, PrimFloat.is_nan, PrimFloat.is_infinity.
  rewrite !FloatAxioms.eqb_spec, abs_spec.
  change (Prim2SF infinity) with (S754_infinity false).
  destruct (Prim2SF x) as [s|s| |s m e]; cbn.
  - intros _. left. exists s. reflexivity.
  - destruct s; discriminate.
  - discriminate.
  - intros _. right. exists s, m, e. reflexivity.
Qed.

Lemma zero_cases (x : float) (s : bool) :
  Prim2SF x = S754_zero s -> x = 0 \/ x = neg_zero.
Proof.
  intros Hx. destruct s; [right | left]; apply Prim2SF_inj; rewrite Hx;
    reflexivity.
Qed.

(** The product by 1 is exact. *)
Lemma mul_one_l (x : float) : PrimFloat.is_finite x = true -> 1 * x = x.
Proof.
  intros Hfin.
  destruct (finite_cases x Hfin) as [[s Hx] | (s & m & e & Hx)].
  - destruct (zero_cases x Hx) as [-> | ->]; reflexivity.
  - apply Prim2SF_inj. rewrite mul_spec, SF_one, Hx.
    pose proof (Prim2SF_valid x) as Hv. rewrite Hx in Hv.
    cbn [valid_binary] in Hv. unfold bounded, canonical_mantissa in Hv.
    apply andb_prop in Hv. destruct Hv as [Hc He].
    apply Z.eqb_eq in Hc.
    unfold SF64mul, SFmul. cbn [xorb].
    unfold binary_round_aux. unfold shr_fexp at 1.
    change (Z.pos (4503599627370496 * m)) with (Z.pos (Pos.iter xO m 52)).
    assert (Hd : Zdigits2 (Z.pos (Pos.iter xO m 52))
                 = (Z.pos (digits2_pos m) + 52)%Z).
    { cbn [Zdigits2 Pos.iter digits2_pos]. lia. }
    rewrite Hd.
    replace (Z.pos (digits2_pos m) + 52 + (-52 + e))%Z
      with (Z.pos (digits2_pos m) + e)%Z by lia.
    rewrite Hc.
    replace (e - (-52 + e))%Z with 52%Z by lia.
    cbn [shr shr_record_of_loc iter_pos shr_1 Pos.iter orb].
    cbn [shr_m loc_of_shr_record round_nearest_even].
    unfold shr_fexp. cbn [Zdigits2].
    replace (-52 + e + 52)%Z with e by lia.
    rewrite Hc, Z.sub_diag.
    cbn [shr shr_record_of_loc shr_m].
    rewrite He. reflexivity.
Qed.

(** The product of 0 and a finite float is a zero. *)
Lemma mul_zero_l (x : float) :
  PrimFloat.is_finite x = true -> 0 * x = 0 \/ 0 * x = neg_zero.
Proof.
  intros Hfin.
  assert (Hz : exists s, Prim2SF (0 * x) = S754_zero s).
  { rewrite mul_spec, SF_zero.
    destruct (finite_cases x Hfin) as [[s ->] | (s & m & e & ->)];
      eexists; reflexivity. }
  destruct Hz as [s Hz]. exact (zero_cases _ Hz).
Qed.

(** Adding a zero to a float that has a mantissa changes nothing. *)
Lemma add_zero_r (x z : float) (s : bool) (m : positive) (e : Z) :
  Prim2SF x = S754_finite s m e -> z = 0 \/ z = neg_zero -> x + z = x.
Proof.
  intros Hx Hz. apply Prim2SF_inj. rewrite add_spec, Hx.
  destruct Hz as [-> | ->]; reflexivity.
Qed.

(** A float that has a mantissa, minus itself, is 0. *)
Lemma sub_diag (x : float) (s : bool) (m : positive) (e : Z) :
  Prim2SF x = S754_finite s m e -> x - x = 0.
Proof.
  intros Hx. apply Prim2SF_inj. rewrite sub_spec, Hx.
  unfold SF64sub, SFsub. rewrite Z.sub_diag. reflexivity.
Qed.

(** Nothing that is not negative is below 0. *)
Lemma ltb_zero_of_leb (t : float) :
  PrimFloat.leb 0 t = true -> PrimFloat.ltb t 0 = false.
Proof.
  rewrite leb_spec, ltb_spec, SF_zero.
  destruct (Prim2SF t) as [s|s| |s m e]; cbn; try reflexivity;
    destruct s; cbn; try reflexivity; discriminate.
Qed.

Lemma valid_threshold_not_below_zero (t : float) :
  valid_threshold t = true -> PrimFloat.ltb t 0 = false.
Proof.
  unfold valid_threshold. intros Ht. apply andb_prop in Ht.
  apply ltb_zero_of_leb. apply Ht.
Qed.

(** [abs(z) > 0] holds of the numbers off zero: neither a zero nor NaN. *)
Lemma abs_above_zero (z : float) :
  PrimFloat.ltb 0 (PrimFloat.abs z) = true
  <-> PrimFloat.eqb z 0 = false /\ PrimFloat.is_nan z = false.
Proof.
  unfold PrimFloat.is_nan.
  rewrite ltb_spec, abs_spec, !FloatAxioms.eqb_spec, SF_zero.
  destruct (Prim2SF z) as [s|s| |s m e]; cbn.
  - split; [discriminate | intros [H _]; discriminate].
  - destruct s; cbn; split; auto.
  - split; [discriminate | intros [_ H]; discriminate].
  - unfold SFeqb, SFcompare.
    rewrite Z.compare_refl, Pos.compare_cont_refl.
    destruct s; cbn; split; auto.
Qed.

End Binary64.

(** ** One call on a detector whose attributes are numbers *)

Section NumericCalls.
Context {F : Type} `{Arith F}.

(** The body of the [try] on an initialized detector, for a numeric sample:
    where the square raises, the center has been assigned and the spread has
    not. *)
Lemma later_try (a t c s v : F) :
  update_ema_try (PyNum v)
    {| ema := PyNum c; alpha := PyNum a; std := PyNum s; threshold := PyNum t |}
  = let c' := add (mul a v) (mul (sub one a) c) in
    match pow2 (sub v c') with
    | Raise e =>
        (Raise e,
         {| ema := PyNum c'; alpha := PyNum a; std := PyNum s;
            threshold := PyNum t |})
    | Ok p =>
        let s' := sqrt (add (mul a p) (mul (sub one a) (np_pow2 s))) in
        let dn := if gtb s' zero then s' else one in
        (if is_zero dn then Raise ZeroDivisionError
         else Ok (gtb (abs (div (sub v c') dn)) t),
         {| ema := PyNum c'; alpha := PyNum a; std := PyNum s';
            threshold := PyNum t |})
    end.
Proof.
  unfold update_ema_try, update_state, z_score, bind, attr, assign, lift, ret;
    simpl.
  destruct (pow2 (sub v (add (mul a v) (mul (sub one a) c)))) as [p|e];
    simpl; [|reflexivity].
  destruct (gtb (sqrt (add (mul a p) (mul (sub one a) (np_pow2 s)))) zero);
    simpl.
  - destruct (is_zero (sqrt (add (mul a p) (mul (sub one a) (np_pow2 s)))));
      reflexivity.
  - destruct (is_zero one); reflexivity.
Qed.

(** The body of the [try] on a fresh detector, for a numeric sample. *)
Lemma first_try (a : value F) (t v : F) :
  update_ema_try (PyNum v) (init a (PyNum t))
  = let dn := if gtb zero zero then zero else one in
    (if is_zero dn then Raise ZeroDivisionError
     else Ok (gtb (abs (div (sub v v) dn)) t),
     {| ema := PyNum v; alpha := a; std := PyNum zero; threshold := PyNum t |}).
Proof.
  unfold update_ema_try, update_state, z_score, bind, attr, assign, lift, ret,
    init; simpl.
  destruct (gtb zero zero); simpl.
  - destruct (is_zero zero); reflexivity.
  - destruct (is_zero one); reflexivity.
Qed.

(** The score on a detector whose center and spread are numbers. *)
Lemma z_score_numeric (a t : value F) (c s v : F) :
  fst (z_score (PyNum v)
         {| ema := PyNum c; alpha := a; std := PyNum s; threshold := t |})
  = let dn := if gtb s zero then s else one in
    if is_zero dn then Raise ZeroDivisionError
    else Ok (PyNum (div (sub v c) dn)).
Proof.
  unfold z_score, bind, attr, lift, ret; simpl.
  destruct (gtb s zero); simpl.
  - destruct (is_zero s); reflexivity.
  - destruct (is_zero one); reflexivity.
Qed.

End NumericCalls.

(** ** One call, in binary64 *)

Section Calls64.
Local Open Scope float_scope.

(** C's [pow(x, 2.0)], as Python and as numpy call it. *)
Variables pw np_pw : float -> float.

Local Abbreviation libm := (float_arith_with pw np_pw).

(** The first call with a finite sample. *)
Lemma fresh_call_64 (a : value float) (t v : float) :
  valid_threshold t = true -> PrimFloat.is_finite v = true ->
  update_ema (H:=libm) (PyNum v) (init a (PyNum t))
  = (false,
     {| ema := PyNum v; alpha := a; std := PyNum 0; threshold := PyNum t |}).
Proof.
  intros Ht Hv. unfold update_ema. rewrite first_try.
  pose proof (valid_threshold_not_below_zero t Ht) as Hlt.
  cbn -[PrimFloat.sub PrimFloat.div PrimFloat.abs PrimFloat.ltb].
  change (PrimFloat.ltb PrimFloat.zero PrimFloat.zero) with false.
  change (PrimFloat.eqb PrimFloat.one PrimFloat.zero) with false.
  cbv iota.
  assert (Hz : PrimFloat.abs ((v - v) / PrimFloat.one) = 0).
  { destruct (finite_cases v Hv) as [[s Hx] | (s & m & e & Hx)].
    - destruct (zero_cases v Hx) as [-> | ->]; reflexivity.
    - rewrite (sub_diag v Hx). reflexivity. }
  rewrite Hz, Hlt. reflexivity.
Qed.

(** A call on a detector with [alpha = 1.0], a finite center and spread 0:
    the deviation from the new center is a zero, whose square Python takes
    without the C library, and the spread is squared by [np_pw]. *)
Lemma alpha_one_call_64 (t c v : float) :
  np_pw 0 = 0 ->
  valid_threshold t = true ->
  PrimFloat.is_finite c = true -> PrimFloat.is_finite v = true ->
  exists c',
    update_ema (H:=libm) (PyNum v) (initialized64 1 t c 0)
    = (false, initialized64 1 t c' 0)
    /\ PrimFloat.eqb c' v = true
    /\ PrimFloat.is_finite c' = true
    /\ PrimFloat.abs ((v - c') / 1) = 0.
Proof.
  intros Hnp Ht Hc Hv.
  pose proof (valid_threshold_not_below_zero t Ht) as Hlt.
  assert (Hcenter : exists c',
             1 * v + (1 - 1) * c = c'
             /\ PrimFloat.eqb c' v = true
             /\ PrimFloat.is_finite c' = true
             /\ (v - c' = 0 \/ v - c' = neg_zero)).
  { rewrite (mul_one_l v Hv). change (1 - 1) with 0.
    destruct (finite_cases v Hv) as [[s Hx] | (s & m & e & Hx)].
    - destruct (zero_cases v Hx) as [-> | ->];
        destruct (mul_zero_l c Hc) as [-> | ->];
        eexists; (split; [reflexivity|]);
        repeat split; first [reflexivity | left; reflexivity | right; reflexivity].
    - exists v. rewrite (add_zero_r v Hx (mul_zero_l c Hc)).
      rewrite (sub_diag v Hx). repeat split; try assumption; [|left; reflexivity].
      rewrite FloatAxioms.eqb_spec, Hx.
      unfold SpecFloat.SFeqb, SpecFloat.SFcompare.
      rewrite Z.compare_refl, Pos.compare_cont_refl. destruct s; reflexivity. }
  destruct Hcenter as (c' & Hc' & Heq & Hfin & Hd).
  exists c'.
  unfold update_ema, initialized64. rewrite later_try.
  cbn -[PrimFloat.add PrimFloat.sub PrimFloat.mul PrimFloat.div PrimFloat.abs
        PrimFloat.ltb PrimFloat.eqb PrimFloat.sqrt float_pow2_with].
  change PrimFloat.one with 1. change PrimFloat.zero with 0.
  rewrite Hc', Hnp.
  destruct Hd as [Hd | Hd]; rewrite Hd;
    [ change (float_pow2_with pw 0) with (Ok (A:=float) 0)
    | change (float_pow2_with pw neg_zero) with (Ok (A:=float) 0) ];
    cbv iota beta zeta;
    change (PrimFloat.sqrt (1 * 0 + (1 - 1) * 0)) with 0;
    change (PrimFloat.ltb 0 0) with false;
    change (PrimFloat.eqb 1 0) with false;
    cbv iota;
    [ change (PrimFloat.abs (0 / 1)) with 0
    | change (PrimFloat.abs (neg_zero / 1)) with 0 ];
    rewrite Hlt; repeat split; assumption || reflexivity.
Qed.

End Calls64.

(** ** The exceptions a call can raise *)

Section Errors.
Context {F : Type} `{Arith F}.

(** What the arithmetic has to satisfy: the square raises nothing but
    [OverflowError], a number above 0 is not a zero, and 1 is not a zero. *)
Hypothesis pow2_raises : forall x e, pow2 x = Raise e -> e = OverflowError.
Hypothesis positive_not_zero : forall s, gtb s zero = true -> is_zero s = false.
Hypothesis one_not_zero : is_zero one = false.

Lemma update_state_errors (x : value F) (d : EMAAnomalyDetector F) (e : exn) :
  fst (update_state x d) = Raise e -> e = TypeError \/ e = OverflowError.
Proof.
  destruct d as [c a s t].
  unfold update_state, bind, attr, assign, lift; simpl.
  destruct c as [|c|c]; simpl; [discriminate| |].
  - destruct a as [|a|a], x as [|v|v]; simpl;
      try (intros [= <-]; left; reflexivity).
    destruct (pow2 (sub v (add (mul a v) (mul (sub one a) c)))) as [p|e']
      eqn:Hp; simpl.
    + destruct s; simpl; try discriminate; intros [= <-]; left; reflexivity.
    + intros [= <-]. right. eapply pow2_raises. exact Hp.
  - destruct a as [|a|a], x as [|v|v]; simpl; intros [= <-]; left; reflexivity.
Qed.

(** The divisor of the score is the spread only where it is above 0, and 1
    elsewhere: the division never raises [ZeroDivisionError]. *)
Lemma z_score_errors (x : value F) (d : EMAAnomalyDetector F) (e : exn) :
  fst (z_score x d) = Raise e -> e = TypeError.
Proof.
  destruct d as [c a s t].
  unfold z_score, bind, attr, lift, ret; simpl.
  destruct x as [|v|v], c as [|c|c]; simpl; try (intros [= <-]; reflexivity).
  destruct s as [|s|s]; simpl; try (intros [= <-]; reflexivity).
  destruct (gtb s zero) eqn:Hs; simpl.
  - rewrite positive_not_zero by exact Hs. discriminate.
  - rewrite one_not_zero. discriminate.
Qed.

Lemma update_ema_try_errors (x : value F) (d : EMAAnomalyDetector F) (e : exn) :
  fst (update_ema_try x d) = Raise e -> e = TypeError \/ e = OverflowError.
Proof.
  unfold update_ema_try, bind.
  pose proof (update_state_errors x d) as Hs.
  destruct (update_state x d) as [[[]|e1] d1]; cbn [fst snd] in *;
    [|intros [= <-]; apply Hs; reflexivity].
  pose proof (z_score_errors x d1) as Hz.
  destruct (z_score x d1) as [[z|e2] d2]; cbn [fst snd] in *;
    [|intros [= <-]; left; apply Hz; reflexivity].
  unfold attr, lift.
  destruct z as [|z|z]; cbn [py_abs fst snd];
    try (intros [= <-]; left; reflexivity).
  destruct (threshold d2) as [|t|t]; cbn [py_gt fst snd];
    try (intros [= <-]; left; reflexivity).
Qed.

End Errors.

(** A sample that is not a number raises [TypeError], whatever the detector
    holds: in [self.alpha * value] on a detector that has a center, in
    [value - self.ema] on a fresh one. *)
Lemma update_ema_try_type_error {F} `{Arith F} (x : value F)
    (d : EMAAnomalyDetector F) :
  is_number x = false -> fst (update_ema_try x d) = Raise TypeError.
Proof.
  intros Hx.
  unfold update_ema_try, update_state, z_score, bind, attr, assign, lift; simpl.
  destruct (ema d) eqn:He; simpl.
  - destruct x; simpl in *; try discriminate; reflexivity.
  - destruct (alpha d), x; simpl in *; try discriminate; reflexivity.
  - destruct (alpha d), x; simpl in *; try discriminate; reflexivity.
Qed.

Section Errors64.
Import FloatOps SpecFloat FloatAxioms.
Local Open Scope float_scope.

Variables pw np_pw : float -> float.

Lemma float_pow2_raises (x : float) (e : exn) :
  float_pow2_with pw x = Raise e -> e = OverflowError.
Proof.
  unfold float_pow2_with.
  destruct (PrimFloat.is_nan x); [discriminate|].
  destruct (PrimFloat.is_infinity x); [discriminate|].
  destruct (PrimFloat.eqb x PrimFloat.zero); [discriminate|].
  cbv zeta. destruct (PrimFloat.is_infinity (pw (PrimFloat.abs x)));
    [intros [= <-]; reflexivity | discriminate].
Qed.

Lemma above_zero_not_zero (s : float) :
  PrimFloat.ltb 0 s = true -> PrimFloat.eqb s 0 = false.
Proof.
  rewrite ltb_spec, FloatAxioms.eqb_spec, SF_zero.
  destruct (Prim2SF s) as [b|b| |b m e]; cbn; try discriminate;
    destruct b; cbn; try discriminate; reflexivity.
Qed.

(** In binary64 a call raises [TypeError] or [OverflowError], and nothing
    else. *)
Lemma update_ema_try_errors_64 (x : value float) (d : EMAAnomalyDetector float)
    (e : exn) :
  fst (update_ema_try (H:=float_arith_with pw np_pw) x d) = Raise e ->
  e = TypeError \/ e = OverflowError.
Proof.
  apply (update_ema_try_errors (H:=float_arith_with pw np_pw)).
  - exact float_pow2_raises.
  - exact above_zero_not_zero.
  - reflexivity.
Qed.

End Errors64.

(** ** Streams under [alpha = 1.0], in binary64 *)

Section AlphaOne64.
Import FloatOps SpecFloat FloatAxioms.
Local Open Scope float_scope.

Variables pw np_pw : float -> float.

Local Abbreviation libm := (float_arith_with pw np_pw).

(** A finite float equals itself. *)
Lemma eqb_finite_refl (v : float) :
  PrimFloat.is_finite v = true -> PrimFloat.eqb v v = true.
Proof.
  intros Hv. rewrite FloatAxioms.eqb_spec.
  destruct (finite_cases v Hv) as [[s ->] | (s & m & e & ->)];
    [reflexivity|].
  unfold SFeqb, SFcompare.
  rewrite Z.compare_refl, Pos.compare_cont_refl. destruct s; reflexivity.
Qed.

(** The score of a finite sample against itself is 0. *)
Lemma score_against_itself (v : float) :
  PrimFloat.is_finite v = true -> PrimFloat.abs ((v - v) / 1) = 0.
Proof.
  intros Hv. destruct (finite_cases v Hv) as [[s Hx] | (s & m & e & Hx)].
  - destruct (zero_cases v Hx) as [-> | ->]; reflexivity.
  - rewrite (sub_diag v Hx). reflexivity.
Qed.

(** From a finite center and spread 0, every finite sample keeps the
    spread at 0 and is not flagged. *)
Lemma alpha_one_feed_64 (t : float) (vs : list float) :
  np_pw 0 = 0 -> valid_threshold t = true ->
  forallb PrimFloat.is_finite vs = true ->
  forall c, PrimFloat.is_finite c = true ->
  exists c',
    feed (H:=libm) (initialized64 1 t c 0) (map PyNum vs)
    = (repeat false (length vs), initialized64 1 t c' 0)
    /\ PrimFloat.is_finite c' = true.
Proof.
  intros Hnp Ht. induction vs as [|v vs IH]; intros Hvs c Hc.
  - exists c. split; [reflexivity | exact Hc].
  - cbn [forallb] in Hvs. apply andb_prop in Hvs. destruct Hvs as [Hv Hvs].
    destruct (@alpha_one_call_64 pw np_pw t c v Hnp Ht Hc Hv) as (c1 & Hcall & _ & Hc1 & _).
    destruct (IH Hvs c1 Hc1) as (c2 & Hfeed & Hc2).
    exists c2. cbn [map feed length repeat]. rewrite Hcall, Hfeed.
    split; [reflexivity | exact Hc2].
Qed.

End AlphaOne64.

(** ** Properties *)

Section Properties.
Local Open Scope R_scope.
Import Formulas.

(** C1, as stated, fails: with [alpha = 0.5] on a detector with center 0
    and spread 0, the finite sample 2e155 makes the square of the deviation
    overflow; the center has been replaced by 1e155, the spread is still 0
    (not the root of the formula) and the call returns [False]. *)
Lemma recurrence_stops_at_overflow : ~ recurrence_on_every_sample.
Proof.
  intros Hclaim.
  destruct (Hclaim 0.5%float 1%float 0%float 0%float
              0x1.dd55745cbb7edp+515%float
              eq_refl eq_refl eq_refl eq_refl eq_refl eq_refl)
    as (_ & Hstd & _).
  apply (f_equal valid_sample) in Hstd.
  vm_compute in Hstd. discriminate Hstd.
Qed.

(** C1, amended. A call with a numeric sample on an initialized detector
    that raises no exception inside, in any arithmetic: the center becomes
    [alpha*value + (1-alpha)*center], the spread becomes the root of
    [alpha*(value - new_center)**2 + (1-alpha)*spread**2], the deviation
    being taken against the updated center, the score is
    [(value - new_center)/new_spread] when the new spread is positive and
    [(value - new_center)/1] otherwise, and the call returns [True] exactly
    when the absolute score exceeds the threshold. *)
Theorem update_ema_recurrence {F} `{Arith F} (a t c s v : F) (b : bool) :
  let d := {| ema := PyNum c; alpha := PyNum a; std := PyNum s;
              threshold := PyNum t |} in
  fst (update_ema_try (PyNum v) d) = Ok b ->
  let c' := add (mul a v) (mul (sub one a) c) in
  exists p,
    pow2 (sub v c') = Ok p
    /\ let s' := sqrt (add (mul a p) (mul (sub one a) (np_pow2 s))) in
       let z := if gtb s' zero then div (sub v c') s' else div (sub v c') one in
       update_ema (PyNum v) d
       = (gtb (abs z) t,
          {| ema := PyNum c'; alpha := PyNum a; std := PyNum s';
             threshold := PyNum t |})
       /\ fst (z_score (PyNum v) (snd (update_ema (PyNum v) d))) = Ok (PyNum z)
       /\ b = gtb (abs z) t.
Proof.
  intros d Hok c'. subst d. unfold update_ema.
  rewrite later_try in *. cbv zeta in Hok |- *. fold c' in Hok |- *.
  destruct (pow2 (sub v c')) as [p|e]; [|discriminate Hok].
  exists p. split; [reflexivity|].
  cbn [fst snd] in Hok |- *.
  set (s' := sqrt (add (mul a p) (mul (sub one a) (np_pow2 s)))) in *.
  assert (Hz : forall b0 : bool,
             fst (z_score (PyNum v)
                    (snd (b0, {| ema := PyNum c'; alpha := PyNum a;
                                 std := PyNum s'; threshold := PyNum t |})))
             = (if is_zero (if gtb s' zero then s' else one)
                then Raise ZeroDivisionError
                else Ok (PyNum (div (sub v c') (if gtb s' zero then s' else one))))).
  { intros b0. cbn [snd]. apply z_score_numeric. }
  destruct (gtb s' zero).
  - destruct (is_zero s') eqn:Hs'; [discriminate Hok|]. injection Hok as <-.
    repeat split; [apply Hz].
  - destruct (is_zero one) eqn:H1; [discriminate Hok|]. injection Hok as <-.
    repeat split; [apply Hz].
Qed.

Lemma update_ema_recurrence_witness :
  exists p,
    float_pow2 (12 - (0.5 * 12 + (1 - 0.5) * 10))%float = Ok p
    /\ update_ema (PyNum 12%float) (initialized64 0.5 2 10 0)
       = (PrimFloat.ltb 2
            (PrimFloat.abs
               (if PrimFloat.ltb 0
                     (PrimFloat.sqrt
                        (0.5 * p + (1 - 0.5) * rounded_square 0)%float)
                then ((12 - (0.5 * 12 + (1 - 0.5) * 10))
                      / PrimFloat.sqrt
                          (0.5 * p + (1 - 0.5) * rounded_square 0))%float
                else ((12 - (0.5 * 12 + (1 - 0.5) * 10)) / 1)%float)),
          initialized64 0.5 2 (0.5 * 12 + (1 - 0.5) * 10)%float
            (PrimFloat.sqrt (0.5 * p + (1 - 0.5) * rounded_square 0)%float)).
Proof.
  assert (Hok : fst (update_ema_try (PyNum 12%float) (initialized64 0.5 2 10 0))
                = Ok false) by (vm_compute; reflexivity).
  destruct (update_ema_recurrence (F:=float) 0.5%float 2%float 10%float
              0%float 12%float Hok) as (p & Hp & Hcall & _).
  exists p. split; [exact Hp | exact Hcall].
Defined.

(** C2. The first call on a fresh detector whose threshold is not negative,
    with any numeric sample [v]: it returns [False] and leaves
    [center = v], [spread = 0]. *)
Theorem first_sample_not_anomalous (a t v : R) :
  0 < a <= 1 -> 0 <= t ->
  update_ema (PyNum v) (init (PyNum a) (PyNum t)) =
  (false, {| ema := PyNum v; alpha := PyNum a; std := PyNum 0;
             threshold := PyNum t |}).
Proof.
  intros _ Ht. rewrite first_call_R. f_equal.
  apply Rgtb_false.
  replace ((v - v) / 1) with 0 by (field).
  rewrite Rabs_R0. exact Ht.
Qed.

Lemma first_sample_not_anomalous_witness :
  update_ema (PyNum 50) (init (PyNum (1/10)) (PyNum 3)) =
  (false, {| ema := PyNum 50; alpha := PyNum (1/10); std := PyNum 0;
             threshold := PyNum 3 |}).
Proof. apply first_sample_not_anomalous; lra. Defined.

(** The state after a non-finite sample is not the state without it: a
    supporting evaluation on binary64 ([alpha = 0.5], samples 10, inf, 10). *)
Lemma nonfinite_sample_alters_state :
  snd (feed (init (PyNum 0.5%float) (PyNum 2%float))
         [PyNum 10%float; PyNum infinity; PyNum 10%float])
  <> snd (feed (init (PyNum 0.5%float) (PyNum 2%float))
            [PyNum 10%float; PyNum 10%float]).
Proof.
  intros Heq.
  apply (f_equal (fun d => valid_sample (ema d))) in Heq.
  vm_compute in Heq. discriminate Heq.
Qed.

(** C4, as stated, fails: with [alpha = 0.5], [threshold = 2], after the
    sample 10 the call with the string ["oops"] returns [False], the very
    value the call with the valid sample 10 returns in the same state. *)
Lemma invalid_sample_not_isolated : ~ invalid_sample_isolated.
Proof.
  intros Hclaim.
  destruct (Hclaim 0.5%float 2%float 10%float 10%float (PyStr "oops")
              eq_refl eq_refl eq_refl eq_refl eq_refl) as [_ Hdist].
  apply (Hdist 10%float eq_refl). vm_compute. reflexivity.
Qed.

(** C4, amended. In any arithmetic and under any configuration, a sample
    that is not a number ([None] or a string) fed after a numeric sample
    [xa] changes no attribute, so that [xa], [x], [xb] leaves the detector
    where [xa], [xb] leaves it; the call with [x] returns [False], the value
    of a normal non-anomalous classification. *)
Theorem nonnumeric_sample_is_noop {F} `{Arith F} (a t : value F) (xa xb : F)
    (x : value F) :
  is_number x = false ->
  let d0 := init a t in
  let d1 := snd (update_ema (PyNum xa) d0) in
  update_ema x d1 = (false, d1)
  /\ snd (feed d0 [PyNum xa; x; PyNum xb]) = snd (feed d0 [PyNum xa; PyNum xb]).
Proof.
  intros Hx d0 d1.
  assert (Hskip : update_ema x d1 = (false, d1)).
  { apply update_ema_skips; [exact Hx|].
    subst d1 d0. rewrite first_call_state. reflexivity. }
  split; [exact Hskip|].
  cbn [feed]. subst d1.
  destruct (update_ema (PyNum xa) d0) as [ba da]; cbn [snd] in Hskip.
  rewrite Hskip.
  destruct (update_ema (PyNum xb) da) as [bb db]. reflexivity.
Qed.

Lemma nonnumeric_sample_is_noop_witness :
  snd (feed (init (PyNum 0.5%float) (PyNum 2%float))
         [PyNum 10%float; PyStr "oops"; PyNum 12%float])
  = snd (feed (init (PyNum 0.5%float) (PyNum 2%float))
           [PyNum 10%float; PyNum 12%float]).
Proof.
  exact (proj2 (nonnumeric_sample_is_noop (PyNum 0.5%float) (PyNum 2%float)
                  10%float 12%float (PyStr "oops") eq_refl)).
Defined.

(** C5, as stated, fails: [EMAAnomalyDetector(alpha=5, threshold=-1)]
    evaluates to an instance. *)
Lemma invalid_configuration_accepted : ~ invalid_configuration_rejected.
Proof.
  intros Hclaim.
  apply (Hclaim (PyNum 5%float) (PyNum (-1)%float) eq_refl
           (init (PyNum 5%float) (PyNum (-1)%float))).
  reflexivity.
Qed.

(** C5, amended. Construction never fails: for every [alpha] and
    [threshold], of any kind and in or out of range, it produces a detector
    that holds both unchanged and has center and spread unset. *)
Theorem construct_never_fails {F} `{Arith F} (a t : value F) :
  exists d,
    construct a t = Ok d
    /\ alpha d = a /\ threshold d = t
    /\ ema d = PyNone /\ std d = PyNone.
Proof.
  exists (init a t). unfold construct, init. repeat split.
Qed.




(** C7. [alpha = 0.1], [threshold = 3], samples 50, 50, 50, 50, 100 into a
    fresh detector: each of the first four calls returns [False] and leaves
    center 50 and spread 0; the fifth returns [True], with a positive score.
    In binary64, as Python computes it, and over the reals. *)
Theorem flat_then_spike :
  (let d0 := init (PyNum tenth) (PyNum 3%float) in
   let flat := initialized64 tenth 3 50 0 in
   map (fun n => feed d0 (repeat (PyNum 50%float) n)) [1; 2; 3; 4]%nat
   = map (fun n => (repeat false n, flat)) [1; 2; 3; 4]%nat
   /\ fst (feed d0 (map PyNum [50; 50; 50; 50; 100]%float))
      = [false; false; false; false; true]
   /\ exists z,
        fst (z_score (PyNum 100%float)
               (snd (feed d0 (map PyNum [50; 50; 50; 50; 100]%float))))
        = Ok (PyNum z)
        /\ PrimFloat.ltb 0 z = true)
  /\
  (let d0 := init (PyNum (1/10)) (PyNum 3) in
   let flat := initialized (1/10) 3 50 0 in
   map (fun n => feed d0 (repeat (PyNum 50) n)) [1; 2; 3; 4]%nat
   = map (fun n => (repeat false n, flat)) [1; 2; 3; 4]%nat
   /\ fst (feed d0 (map PyNum [50; 50; 50; 50; 100]))
      = [false; false; false; false; true]
   /\ exists z,
        fst (z_score (PyNum 100)
               (snd (feed d0 (map PyNum [50; 50; 50; 50; 100]))))
        = Ok (PyNum z)
        /\ 0 < z).
Proof.
  split.
  - cbv zeta. split; [vm_compute; reflexivity|].
    split; [vm_compute; reflexivity|].
    eexists. split; vm_compute; reflexivity.
  - cbv zeta.
    assert (Ht : 0 <= 3) by lra.
    assert (Hc : new_center (1/10) 50 100 = 55) by (unfold new_center; lra).
    assert (Hs : new_spread (1/10) 50 0 100 = R_sqrt.sqrt (405/2)).
    { unfold new_spread. rewrite Hc. f_equal. lra. }
    assert (Hpos : 0 < R_sqrt.sqrt (405/2)) by (apply sqrt_lt_R0; lra).
    assert (Hlt : R_sqrt.sqrt (405/2) < 15).
    { rewrite <- (sqrt_square 15) by lra. apply sqrt_lt_1; lra. }
    assert (Hz : score_of 55 (R_sqrt.sqrt (405/2)) 100 = 45 / R_sqrt.sqrt (405/2)).
    { unfold score_of. destruct (Rgt_dec (R_sqrt.sqrt (405/2)) 0); [|lra].
      f_equal. lra. }
    assert (Hbig : 3 < 45 / R_sqrt.sqrt (405/2)).
    { apply (Rmult_lt_reg_r (R_sqrt.sqrt (405/2))); [exact Hpos|].
      unfold Rdiv. rewrite Rmult_assoc, Rinv_l by lra. lra. }
    assert (Hfive :
      feed (init (PyNum (1/10)) (PyNum 3)) (map PyNum [50; 50; 50; 50; 100])
      = ([false; false; false; false; true],
         initialized (1/10) 3 55 (R_sqrt.sqrt (405/2)))).
    { change (map PyNum [50; 50; 50; 50; 100])
        with (repeat (PyNum 50) 4 ++ [PyNum 100]).
      rewrite feed_snoc, (flat_prefix_R (1/10) 50 3 Ht). cbn [fst snd].
      rewrite later_call_R. unfold new_score. rewrite Hc, Hs, Hz.
      cbn [fst snd repeat app].
      replace (Rgtb (Rabs (45 / R_sqrt.sqrt (405/2))) 3) with true; [reflexivity|].
      symmetry. apply Rgtb_true. rewrite Rabs_right by lra. lra. }
    split.
    { cbn [map]. rewrite !(flat_prefix_R (1/10) 50 _ Ht). reflexivity. }
    split; [rewrite Hfive; reflexivity|].
    exists (45 / R_sqrt.sqrt (405/2)). rewrite Hfive. cbn [snd].
    split; [rewrite z_score_R, Hz; reflexivity | lra].
Qed.

(** C8, as stated, fails: with [alpha = 0.1] and [threshold = 0], after the
    sample -1.7e308 the finite sample 1.7e308 gets the score NaN (the
    deviation and the spread overflow to [inf]), which is not zero, and is
    not flagged. *)
Lemma nan_score_not_flagged : ~ zero_threshold_flags_nonzero_scores.
Proof.
  intros Hclaim.
  pose proof (Hclaim tenth (-0x1.e42d130773b76p+1023)%float 0%float
                0x1.e42d130773b76p+1023%float nan
                eq_refl eq_refl eq_refl eq_refl eq_refl) as Hiff.
  cbv zeta in Hiff.
  assert (Hflag : fst (update_ema (PyNum 0x1.e42d130773b76p+1023%float)
                         (initialized64 tenth 0
                            (-0x1.e42d130773b76p+1023)%float 0)) = true).
  { apply Hiff; vm_compute; reflexivity. }
  vm_compute in Hflag. discriminate Hflag.
Qed.

(** C8, amended. With [threshold = 0], in binary64 over any C library and
    whatever the sample and the state, a call that completes returns [True]
    exactly when the score it computed is neither a zero nor NaN; a call in
    which an operation raises returns [False]. *)
Theorem zero_threshold_flags_off_zero (pw np_pw : float -> float)
    (x : value float) (d : EMAAnomalyDetector float) :
  threshold d = PyNum 0%float ->
  (forall b,
     fst (update_ema_try (H:=float_arith_with pw np_pw) x d) = Ok b ->
     exists z,
       fst (z_score (H:=float_arith_with pw np_pw) x
              (snd (update_ema (H:=float_arith_with pw np_pw) x d)))
       = Ok (PyNum z)
       /\ fst (update_ema (H:=float_arith_with pw np_pw) x d) = b
       /\ (b = true
           <-> PrimFloat.eqb z 0 = false /\ PrimFloat.is_nan z = false))
  /\ (forall e,
        fst (update_ema_try (H:=float_arith_with pw np_pw) x d) = Raise e ->
        fst (update_ema (H:=float_arith_with pw np_pw) x d) = false).
Proof.
  intros Ht. split.
  - intros b Hb.
    pose proof (update_ema_keeps (H:=float_arith_with pw np_pw) x d)
      as [_ Hkeep].
    rewrite (update_ema_returns x d Hb) in Hkeep |- *. cbn [fst snd] in *.
    destruct (update_ema_try_completes x d Hb) as (z & t & Hz & Hthr & ->).
    rewrite Hkeep, Ht in Hthr. injection Hthr as <-.
    exists z. split; [exact Hz|]. split; [reflexivity|].
    apply abs_above_zero.
  - intros e He. rewrite (update_ema_handlers x d He). reflexivity.
Qed.

Lemma zero_threshold_flags_off_zero_witness :
  exists z,
    fst (z_score (PyNum 12%float)
           (snd (update_ema (PyNum 12%float) (initialized64 0.5 0 10 0))))
    = Ok (PyNum z)
    /\ fst (update_ema (PyNum 12%float) (initialized64 0.5 0 10 0)) = true
    /\ (true = true
        <-> PrimFloat.eqb z 0 = false /\ PrimFloat.is_nan z = false).
Proof.
  assert (Hok : fst (update_ema_try (PyNum 12%float) (initialized64 0.5 0 10 0))
                = Ok true) by (vm_compute; reflexivity).
  exact (proj1 (zero_threshold_flags_off_zero rounded_square rounded_square
                  (PyNum 12%float) (initialized64 0.5 0 10 0) eq_refl)
           true Hok).
Defined.

(** C9, as stated, fails: a sample may be a numpy array, and on a fresh
    detector the array [[1.0, 2.0]] raises nothing and gets the array
    [[False, False]] back, not a boolean. *)
Lemma array_sample_returns_array : ~ update_ema_always_boolean.
Proof.
  intros Hclaim.
  destruct (Hclaim (Ndarray [1%float; 2%float]) (PyNum tenth) 3%float)
    as [b Hb].
  vm_compute in Hb. discriminate Hb.
Qed.

(** C9, amended. For a sample that is [None], a float or a string, on a
    detector holding such objects, in binary64 over any C library: the body
    of the [try] either completes, and the call returns its boolean, or
    raises [TypeError] or [OverflowError], and the call returns [False];
    [ZeroDivisionError] is never raised.  A sample that is not a number
    raises [TypeError] whatever the detector holds, and gets [False], the
    value of a normal non-anomalous classification. *)
Theorem update_ema_turns_errors_into_false (pw np_pw : float -> float)
    (x : value float) (d : EMAAnomalyDetector float) :
  ((exists b,
      fst (update_ema_try (H:=float_arith_with pw np_pw) x d) = Ok b
      /\ fst (update_ema (H:=float_arith_with pw np_pw) x d) = b)
   \/ ((fst (update_ema_try (H:=float_arith_with pw np_pw) x d)
        = Raise TypeError
        \/ fst (update_ema_try (H:=float_arith_with pw np_pw) x d)
           = Raise OverflowError)
       /\ fst (update_ema (H:=float_arith_with pw np_pw) x d) = false))
  /\ (is_number x = false ->
      fst (update_ema_try (H:=float_arith_with pw np_pw) x d) = Raise TypeError
      /\ fst (update_ema (H:=float_arith_with pw np_pw) x d) = false).
Proof.
  split.
  - destruct (fst (update_ema_try (H:=float_arith_with pw np_pw) x d))
      as [b|e] eqn:Htry.
    + left. exists b. split; [reflexivity|].
      rewrite (update_ema_returns x d Htry). reflexivity.
    + right. split.
      * destruct (update_ema_try_errors_64 pw np_pw x d Htry) as [-> | ->];
          [left | right]; reflexivity.
      * rewrite (update_ema_handlers x d Htry). reflexivity.
  - intros Hx.
    pose proof (update_ema_try_type_error (H:=float_arith_with pw np_pw) x d Hx)
      as Htry.
    split; [exact Htry|].
    rewrite (update_ema_handlers x d Htry). reflexivity.
Qed.

Lemma update_ema_turns_errors_into_false_witness :
  fst (update_ema_try (PyStr "oops") (initialized64 0.5 2 10 0))
  = Raise TypeError
  /\ fst (update_ema (PyStr "oops") (initialized64 0.5 2 10 0)) = false.
Proof.
  exact (proj2 (update_ema_turns_errors_into_false rounded_square
                  rounded_square (PyStr "oops") (initialized64 0.5 2 10 0))
           eq_refl).
Defined.

(** C10, as stated, fails: with [alpha = 1.0], [threshold = 3] and center
    50.0, the finite sample [10**400], a Python int, makes
    [self.alpha * value] raise [OverflowError]; the call returns [False]
    and leaves the center at 50.0, which is not the sample. *)
Lemma huge_int_sample_not_followed : ~ alpha_one_follows_every_sample.
Proof.
  intros Hclaim.
  destruct (Hclaim 3%float 50%float (PyInt (10 ^ 400)) eq_refl eq_refl eq_refl)
    as (c' & _ & y & Hy & _).
  vm_compute in Hy. discriminate Hy.
Qed.

(** C10, amended. With [alpha = 1.0] and a finite threshold that is not
    negative, in binary64 over any C library whose [pow(0.0, 2.0)] is 0.0:
    after every stream of finite floats fed to a fresh detector, the center
    equals ([==]) the latest sample, the spread is exactly 0, the score of
    the latest sample is a zero, and no call of the stream has returned
    [True]. *)
Theorem alpha_one_never_flags (pw np_pw : float -> float) (t v : float)
    (vs : list float) :
  np_pw 0%float = 0%float ->
  valid_threshold t = true ->
  forallb PrimFloat.is_finite vs = true -> PrimFloat.is_finite v = true ->
  let d0 := init (PyNum 1%float) (PyNum t) in
  let r := feed (H:=float_arith_with pw np_pw) d0 (map PyNum (vs ++ [v])) in
  exists c z,
    snd r = initialized64 1 t c 0
    /\ PrimFloat.eqb c v = true
    /\ fst (z_score (H:=float_arith_with pw np_pw) (PyNum v) (snd r))
       = Ok (PyNum z)
    /\ PrimFloat.abs z = 0%float
    /\ fst r = repeat false (length (vs ++ [v])).
Proof.
  intros Hnp Ht Hvs Hv d0 r. subst r d0.
  rewrite map_app. cbn [map]. rewrite feed_snoc.
  assert (Hlen : repeat false (length (vs ++ [v]))
                 = repeat false (length vs) ++ [false]).
  { rewrite length_app, repeat_app. reflexivity. }
  rewrite Hlen. cbn [fst snd].
  destruct vs as [|v0 vs].
  - cbn [map feed fst snd length repeat app].
    rewrite (@fresh_call_64 pw np_pw (PyNum 1%float) t v Ht Hv).
    exists v, ((v - v) / 1)%float. cbn [fst snd].
    split; [reflexivity|].
    split; [apply eqb_finite_refl; exact Hv|].
    split; [reflexivity|].
    split; [apply score_against_itself; exact Hv | reflexivity].
  - cbn [forallb] in Hvs. apply andb_prop in Hvs. destruct Hvs as [Hv0 Hvs].
    cbn [map feed].
    rewrite (@fresh_call_64 pw np_pw (PyNum 1%float) t v0 Ht Hv0).
    fold (initialized64 1 t v0 0).
    destruct (@alpha_one_feed_64 pw np_pw t vs Hnp Ht Hvs v0 Hv0)
      as (c1 & Hfeed & Hc1).
    rewrite Hfeed. cbn [fst snd].
    destruct (@alpha_one_call_64 pw np_pw t c1 v Hnp Ht Hc1 Hv)
      as (c2 & Hcall & Heq & _ & Hz).
    rewrite Hcall. cbn [fst snd].
    exists c2, ((v - c2) / 1)%float.
    split; [reflexivity|].
    split; [exact Heq|].
    split; [reflexivity|].
    split; [exact Hz | reflexivity].
Qed.

Lemma alpha_one_never_flags_witness :
  exists c z,
    snd (feed (init (PyNum 1%float) (PyNum 3%float))
           (map PyNum ([50; 60] ++ [100])%float))
    = initialized64 1 3 c 0
    /\ PrimFloat.eqb c 100 = true
    /\ fst (z_score (PyNum 100%float)
              (snd (feed (init (PyNum 1%float) (PyNum 3%float))
                      (map PyNum ([50; 60] ++ [100])%float))))
       = Ok (PyNum z)
    /\ PrimFloat.abs z = 0%float
    /\ fst (feed (init (PyNum 1%float) (PyNum 3%float))
              (map PyNum ([50; 60] ++ [100])%float))
       = repeat false (length ([50; 60] ++ [100])%float).
Proof.
  exact (@alpha_one_never_flags rounded_square rounded_square 3%float
           100%float [50; 60]%float eq_refl eq_refl eq_refl eq_refl).
Defined.

End Properties.

(** * More of the detector and of its callers *)

(** ** Samples and configurations that are not numbers *)

(** Two detectors with the same estimate: they agree on everything but the
    threshold. *)
Definition same_estimate {F} (d1 d2 : EMAAnomalyDetector F) : Prop :=
  ema d1 = ema d2 /\ alpha d1 = alpha d2 /\ std d1 = std d2.

Section EdgeCases.
Context {F : Type} `{Arith F}.

(** With a string for center, the product [(1 - self.alpha) * self.ema]
    raises (or, [alpha] not being a number, an operation before it) and
    nothing is assigned. *)
Lemma update_ema_stuck (v : F) (d : EMAAnomalyDetector F) (s0 : string) :
  ema d = PyStr s0 -> update_ema (PyNum v) d = (false, d).
Proof.
  destruct d as [e a s t]. cbn [ema]. intros ->.
  unfold update_ema, update_ema_try, update_state, bind, attr, lift; simpl.
  destruct a; reflexivity.
Qed.

Lemma feed_stuck (vs : list F) (d : EMAAnomalyDetector F) (s0 : string) :
  ema d = PyStr s0 ->
  feed d (map PyNum vs) = (repeat false (length vs), d).
Proof.
  intros He. induction vs as [|v vs IH]; [reflexivity|].
  cbn [map feed length repeat].
  rewrite (update_ema_stuck v d He), IH. reflexivity.
Qed.

(** [update_state] reads no threshold. *)
Lemma update_state_same_estimate (x : value F) (d1 d2 : EMAAnomalyDetector F) :
  same_estimate d1 d2 ->
  same_estimate (snd (update_state x d1)) (snd (update_state x d2)).
Proof.
  destruct d1 as [e1 a1 s1 t1], d2 as [e2 a2 s2 t2].
  intros (He & Ha & Hs). cbn [ema alpha std] in He, Ha, Hs. subst e2 a2 s2.
  unfold same_estimate, update_state, bind, attr, assign, lift; simpl.
  destruct e1 as [|c|c]; simpl; [repeat split; reflexivity| |].
  - destruct a1 as [|a|a], x as [|v|v]; simpl; try (repeat split; reflexivity).
    destruct (pow2 (sub v (add (mul a v) (mul (sub one a) c)))); simpl;
      [|repeat split; reflexivity].
    destruct s1; simpl; repeat split; reflexivity.
  - destruct a1 as [|a|a], x as [|v|v]; simpl; repeat split; reflexivity.
Qed.

(** X7. A string as first sample wedges the detector: the call stores the
    string as center, and every later call with a number raises inside,
    returns [False] and changes nothing, under any configuration. *)
Theorem string_first_sample_wedges (a t : value F) (s0 : string) (vs : list F) :
  feed (init a t) (PyStr s0 :: map PyNum vs)
  = (repeat false (S (length vs)),
     {| ema := PyStr s0; alpha := a; std := PyNum zero; threshold := t |}).
Proof.
  cbn [feed].
  assert (Hfirst : update_ema (PyStr s0) (init a t)
                   = (false, {| ema := PyStr s0; alpha := a;
                                std := PyNum zero; threshold := t |})).
  { unfold update_ema, update_ema_try, update_state, z_score, bind, attr,
      assign, lift, init; simpl. reflexivity. }
  rewrite Hfirst, (feed_stuck vs _ (s0:=s0)) by reflexivity.
  reflexivity.
Qed.

(** X8. [None] as first sample defers initialization: the call returns
    [False] and leaves the center unset, and the stream that follows is
    processed exactly as by a fresh detector. *)
Theorem none_first_sample_defers (a t x : value F) (vs : list (value F)) :
  feed (init a t) (PyNone :: x :: vs)
  = (false :: fst (feed (init a t) (x :: vs)),
     snd (feed (init a t) (x :: vs))).
Proof.
  cbn [feed].
  assert (Hnone : update_ema PyNone (init a t)
                  = (false, {| ema := PyNone; alpha := a;
                               std := PyNum zero; threshold := t |})).
  { unfold update_ema, update_ema_try, update_state, z_score, bind, attr,
      assign, lift, init; simpl. reflexivity. }
  rewrite Hnone.
  assert (Hsame : update_ema x {| ema := PyNone; alpha := a;
                                  std := PyNum zero; threshold := t |}
                  = update_ema x (init a t)).
  { unfold update_ema, update_ema_try, update_state, bind, attr, assign,
      init; simpl. reflexivity. }
  rewrite Hsame.
  destruct (update_ema x (init a t)) as [b d1].
  destruct (feed d1 vs) as [bs d2]. reflexivity.
Qed.


(** X10. The threshold decides and never steers: two detectors that differ
    only in their threshold have the same center and spread after any
    stream of samples. *)
Theorem threshold_never_steers (vs : list (value F))
    (d1 d2 : EMAAnomalyDetector F) :
  same_estimate d1 d2 ->
  same_estimate (snd (feed d1 vs)) (snd (feed d2 vs)).
Proof.
  revert d1 d2. induction vs as [|x vs IH]; intros d1 d2 Hsame; [exact Hsame|].
  cbn [feed].
  pose proof (update_state_same_estimate x Hsame) as Hstep.
  rewrite <- !update_ema_state in Hstep.
  destruct (update_ema x d1) as [b1 e1], (update_ema x d2) as [b2 e2].
  cbn [snd] in Hstep. specialize (IH e1 e2 Hstep).
  destruct (feed e1 vs), (feed e2 vs). exact IH.
Qed.

(** X11. An [alpha] that is not a number freezes the detector at its first
    sample: once the center is set, every call raises at the first
    product, returns [False] and changes nothing. *)
Theorem nonnumeric_alpha_freezes (x : value F) (d : EMAAnomalyDetector F) :
  is_number (alpha d) = false -> is_None (ema d) = false ->
  update_ema x d = (false, d).
Proof.
  destruct d as [e a s t]. cbn [ema alpha]. intros Ha He.
  unfold update_ema, update_ema_try, update_state, bind, attr, lift; simpl.
  rewrite He.
  destruct a; simpl in *; try discriminate; reflexivity.
Qed.

End EdgeCases.


Lemma threshold_never_steers_witness :
  same_estimate
    (snd (feed (init (PyNum 0.5%float) (PyNum 2%float))
            [PyNum 10%float; PyNum 100%float]))
    (snd (feed (init (PyNum 0.5%float) PyNone)
            [PyNum 10%float; PyNum 100%float])).
Proof.
  apply threshold_never_steers. repeat split.
Defined.

Lemma nonnumeric_alpha_freezes_witness :
  update_ema (PyNum 100%float)
    {| ema := PyNum 50%float; alpha := PyNone;
       std := PyNum 0%float; threshold := PyNum 3%float |}
  = (false, {| ema := PyNum 50%float; alpha := PyNone;
               std := PyNum 0%float; threshold := PyNum 3%float |}).
Proof.
  exact (nonnumeric_alpha_freezes (PyNum 100%float)
           {| ema := PyNum 50%float; alpha := PyNone;
              std := PyNum 0%float; threshold := PyNum 3%float |}
           eq_refl eq_refl).
Defined.


(** ** NaN, in binary64 *)

Section NaN.
Local Open Scope float_scope.

Variables pw np_pw : float -> float.

Local Abbreviation libm := (float_arith_with pw np_pw).

(** A call on a detector whose center is NaN. *)
Lemma nan_center_call (a t s v : float) :
  update_ema (H:=libm) (PyNum v) (initialized64 a t nan s)
  = (false, initialized64 a t nan nan).
Proof.
  unfold update_ema, initialized64. rewrite later_try.
  cbn -[PrimFloat.add PrimFloat.sub PrimFloat.mul PrimFloat.div PrimFloat.abs
        PrimFloat.ltb PrimFloat.eqb PrimFloat.sqrt float_pow2_with].
  rewrite !mul_nan_r, !add_nan_r, !sub_nan_r.
  change (float_pow2_with pw nan) with (Ok (A:=float) nan).
  cbv iota beta zeta.
  rewrite !mul_nan_r, !add_nan_l.
  change (PrimFloat.sqrt nan) with nan.
  change (PrimFloat.ltb PrimFloat.zero nan) with false. cbv iota.
  change (PrimFloat.eqb PrimFloat.one PrimFloat.zero) with false. cbv iota.
  change (PrimFloat.abs (nan / PrimFloat.one)) with nan.
  rewrite ltb_nan_r. reflexivity.
Qed.

(** A call with the sample NaN on a detector whose attributes are numbers. *)
Lemma nan_sample_call (a t c s : float) :
  update_ema (H:=libm) (PyNum nan) (initialized64 a t c s)
  = (false, initialized64 a t nan nan).
Proof.
  unfold update_ema, initialized64. rewrite later_try.
  cbn -[PrimFloat.add PrimFloat.sub PrimFloat.mul PrimFloat.div PrimFloat.abs
        PrimFloat.ltb PrimFloat.eqb PrimFloat.sqrt float_pow2_with].
  rewrite !mul_nan_r, !add_nan_l.
  change (nan - nan) with nan.
  change (float_pow2_with pw nan) with (Ok (A:=float) nan).
  cbv iota beta zeta.
  rewrite !mul_nan_r, !add_nan_l.
  change (PrimFloat.sqrt nan) with nan.
  change (PrimFloat.ltb PrimFloat.zero nan) with false. cbv iota.
  change (PrimFloat.eqb PrimFloat.one PrimFloat.zero) with false. cbv iota.
  change (PrimFloat.abs (nan / PrimFloat.one)) with nan.
  rewrite ltb_nan_r. reflexivity.
Qed.

(** The first call of a fresh detector with the sample NaN: the center is
    NaN and the spread is the 0 of the first call. *)
Lemma nan_first_call (a t : float) :
  update_ema (H:=libm) (PyNum nan) (init (PyNum a) (PyNum t))
  = (false, initialized64 a t nan 0).
Proof.
  unfold update_ema. rewrite first_try.
  cbn -[PrimFloat.ltb].
  rewrite ltb_nan_r. reflexivity.
Qed.

Lemma nan_center_feed (a t : float) (ws : list float) :
  forall s,
    feed (H:=libm) (initialized64 a t nan s) (map PyNum ws)
    = (repeat false (length ws),
       initialized64 a t nan (match ws with [] => s | _ => nan end)).
Proof.
  induction ws as [|w ws IH]; intros s; [reflexivity|].
  cbn [map feed length repeat]. rewrite nan_center_call, IH.
  destruct ws; reflexivity.
Qed.

(** X13. One NaN sample disables the detector for good, in binary64 over
    any C library and under every numeric configuration: the call with NaN
    and every later call with any number, finite or not, return [False].
    On a detector that has a center, center and spread are NaN from that
    call on.  On a fresh detector the call with NaN sets the center to NaN
    and the spread to 0, and the spread is NaN from the next call on. *)
Theorem nan_sample_poisons (a t : float) (ws : list float) :
  (forall c s,
     feed (H:=libm) (initialized64 a t c s) (PyNum nan :: map PyNum ws)
     = (repeat false (S (length ws)), initialized64 a t nan nan))
  /\ feed (H:=libm) (init (PyNum a) (PyNum t)) (PyNum nan :: map PyNum ws)
     = (repeat false (S (length ws)),
        initialized64 a t nan (match ws with [] => 0 | _ => nan end)).
Proof.
  split.
  - intros c s. cbn [feed]. rewrite nan_sample_call, nan_center_feed.
    destruct ws; reflexivity.
  - cbn [feed]. rewrite nan_first_call, nan_center_feed. reflexivity.
Qed.

End NaN.

Section NaNThreshold.
Local Open Scope float_scope.

(** X14. A NaN threshold disables the detector, in binary64: every call
    returns [False], whatever the sample and the state. *)
Theorem nan_threshold_never_flags (x : value float)
    (d : EMAAnomalyDetector float) :
  threshold d = PyNum nan -> fst (update_ema x d) = false.
Proof.
  intros Ht.
  pose proof (update_state_keeps x d) as [_ Hthr].
  unfold update_ema, update_ema_try, bind at 1.
  destruct (update_state x d) as [[[]|e] d1]; cbn [snd] in Hthr;
    [|destruct e; reflexivity].
  unfold bind, attr, lift.
  pose proof (z_score_state x d1) as Hz.
  destruct (z_score x d1) as [[z|e] d2]; cbn [snd] in Hz; subst d2;
    [|destruct e; reflexivity].
  destruct z as [|z|z]; simpl; try reflexivity.
  rewrite Hthr, Ht. simpl. apply ltb_nan_l.
Qed.

Lemma nan_threshold_never_flags_witness :
  fst (update_ema (PyNum 100) (initialized64 0.5 nan 50 0)) = false.
Proof.
  exact (nan_threshold_never_flags (PyNum 100) (initialized64 0.5 nan 50 0)
           eq_refl).
Defined.

End NaNThreshold.

(** * The callers: [live_visualization] and [process_data_stream] *)

(** [collections.deque(maxlen=n)]: [append] on a full deque drops the
    leftmost item. *)
Definition deque_append {A} (maxlen : nat) (q : list A) (x : A) : list A :=
  if Nat.ltb (length q) maxlen then q ++ [x] else tl (q ++ [x]).

(** The last [n] items of a list. *)
Definition lastn {A} (n : nat) (l : list A) : list A :=
  skipn (length l - n) l.

(** The items of [xs] whose flag is [true]. *)
Fixpoint select {A} (flags : list bool) (xs : list A) : list A :=
  match flags, xs with
  | b :: flags', x :: xs' =>
      if b then x :: select flags' xs' else select flags' xs'
  | _, _ => []
  end.

Section Callers.
Context {F : Type} `{Arith F}.

(** The four containers of [live_visualization]: the two deques of the
    recent points and the two lists of the anomalies. *)
Record plot_data : Type := mkPlotData {
  data_x : list nat;
  data_y : list (value F);
  anomaly_x : list nat;
  anomaly_y : list (value F)
}.

Definition plot_start : plot_data :=
  {| data_x := []; data_y := []; anomaly_x := []; anomaly_y := [] |}.

(** One iteration of the [for] loop of [live_visualization], for the item
    [(idx, value)] of [enumerate].  The refresh of the figure that ends the
    iteration copies the four containers into the traces and assigns none
    of them; it is left out. *)
Definition live_iteration (idx : nat) (value0 : value F)
    (st : plot_data * EMAAnomalyDetector F) : plot_data * EMAAnomalyDetector F :=
  let (p, d) := st in
  let dx := deque_append 200 (data_x p) idx in
  let dy := deque_append 200 (data_y p) value0 in
  let (flag, d') := update_ema value0 d in
  if flag then
    ({| data_x := dx; data_y := dy;
        anomaly_x := anomaly_x p ++ [idx];
        anomaly_y := anomaly_y p ++ [value0] |}, d')
  else
    ({| data_x := dx; data_y := dy;
        anomaly_x := anomaly_x p; anomaly_y := anomaly_y p |}, d').

(** The loop over the values the stream yields, from index [idx] on. *)
Fixpoint live_visualization_from (idx : nat) (vs : list (value F))
    (st : plot_data * EMAAnomalyDetector F) : plot_data * EMAAnomalyDetector F :=
  match vs with
  | [] => st
  | v :: vs' => live_visualization_from (S idx) vs' (live_iteration idx v st)
  end.

(** [live_visualization] on the values [vs], with the detector [d]. *)
Definition live_visualization (vs : list (value F)) (d : EMAAnomalyDetector F)
    : plot_data * EMAAnomalyDetector F :=
  live_visualization_from 0 vs (plot_start, d).

(** [process_data_stream] on the values [vs]: the values it prints as
    anomalies, in order, and the detector after the loop. *)
Fixpoint process_data_stream (vs : list (value F)) (d : EMAAnomalyDetector F)
    : list (value F) * EMAAnomalyDetector F :=
  match vs with
  | [] => ([], d)
  | v :: vs' =>
      let (flag, d1) := update_ema v d in
      let (out, d2) := process_data_stream vs' d1 in
      (if flag then v :: out else out, d2)
  end.

End Callers.

Arguments plot_data F : clear implicits.

Section Deque.
Context {A : Type}.

Lemma lastn_length (n : nat) (l : list A) :
  length (lastn n l) = Nat.min (length l) n.
Proof. unfold lastn. rewrite length_skipn. lia. Qed.

Lemma lastn_short (n : nat) (l : list A) : length l <= n -> lastn n l = l.
Proof.
  intros Hle. unfold lastn. replace (length l - n) with 0 by lia. reflexivity.
Qed.

(** Appending to a deque that holds at most [maxlen] items. *)
Lemma deque_append_lastn (n : nat) (q : list A) (x : A) :
  length q <= n -> deque_append n q x = lastn n (q ++ [x]).
Proof.
  intros Hle. unfold deque_append, lastn.
  rewrite length_app. cbn [length].
  destruct (Nat.ltb_spec (length q) n) as [Hlt | Hge].
  - replace (length q + 1 - n) with 0 by lia. reflexivity.
  - replace (length q + 1 - n) with 1 by lia.
    destruct (q ++ [x]); reflexivity.
Qed.

Lemma lastn_app_lastn (n : nat) (l r : list A) :
  lastn n (lastn n l ++ r) = lastn n (l ++ r).
Proof.
  unfold lastn at 1 3. rewrite !length_app, lastn_length.
  unfold lastn.
  destruct (Nat.le_gt_cases (length l) n) as [Hle | Hgt].
  - replace (length l - n) with 0 by lia. cbn [skipn].
    f_equal. lia.
  - set (k := length l - n).
    replace (Nat.min (length l) n + length r - n) with (length r) by lia.
    replace (length l + length r - n) with (length r + k) by lia.
    rewrite <- skipn_skipn. f_equal.
    rewrite skipn_app. replace (k - length l) with 0 by lia. reflexivity.
Qed.

End Deque.

Section CallerProperties.
Context {F : Type} `{Arith F}.

(** The loop from any index and any containers whose deques hold at most
    200 items. *)
Lemma live_visualization_from_spec (vs : list (value F)) :
  forall (idx : nat) (p : plot_data F) (d : EMAAnomalyDetector F),
    length (data_x p) <= 200 -> length (data_y p) <= 200 ->
    live_visualization_from idx vs (p, d)
    = ({| data_x := lastn 200 (data_x p ++ seq idx (length vs));
          data_y := lastn 200 (data_y p ++ vs);
          anomaly_x := anomaly_x p
                       ++ select (fst (feed d vs)) (seq idx (length vs));
          anomaly_y := anomaly_y p ++ select (fst (feed d vs)) vs |},
       snd (feed d vs)).
Proof.
  induction vs as [|v vs IH]; intros idx p d Hx Hy.
  - cbn [live_visualization_from length seq feed fst snd select].
    rewrite !app_nil_r, !lastn_short by assumption.
    destruct p; reflexivity.
  - cbn [live_visualization_from feed length seq].
    unfold live_iteration.
    rewrite !deque_append_lastn by assumption.
    destruct (update_ema v d) as [flag d1].
    destruct (feed d1 vs) as [bs d2] eqn:Hfeed.
    assert (Hbs : fst (feed d1 vs) = bs) by (rewrite Hfeed; reflexivity).
    assert (Hd2 : snd (feed d1 vs) = d2) by (rewrite Hfeed; reflexivity).
    cbn [fst snd].
    destruct flag; rewrite IH;
      cbn [data_x data_y anomaly_x anomaly_y select];
      try (rewrite lastn_length; lia);
      rewrite !lastn_app_lastn, <- !app_assoc, Hbs, Hd2; reflexivity.
Qed.

(** X15. The deques of [live_visualization] hold the last 200 points: after
    [n] values, [data_y] is the last [min n 200] values and [data_x] their
    indices [n - min n 200, ..., n - 1]. *)
Theorem window_holds_last_200 (vs : list (value F)) (d : EMAAnomalyDetector F) :
  let p := fst (live_visualization vs d) in
  let n := length vs in
  data_y p = skipn (n - 200) vs
  /\ data_x p = seq (n - 200) (Nat.min n 200)
  /\ length (data_x p) = Nat.min n 200
  /\ length (data_y p) = Nat.min n 200.
Proof.
  intros p n. subst p n. unfold live_visualization.
  rewrite live_visualization_from_spec by (cbn; lia).
  cbn [fst data_x data_y plot_start app].
  assert (Hx : lastn 200 (seq 0 (length vs))
               = seq (length vs - 200) (Nat.min (length vs) 200)).
  { unfold lastn. rewrite length_seq, skipn_seq. f_equal; lia. }
  repeat split.
  - exact Hx.
  - rewrite Hx. apply length_seq.
  - rewrite lastn_length. reflexivity.
Qed.

(** X16. The anomaly lists of [live_visualization] are the flagged samples:
    [anomaly_x] holds the indices and [anomaly_y] the values of exactly the
    calls of [update_ema] that returned [True], in order, and the detector
    has made one call per value. *)
Theorem anomalies_are_flagged_samples (vs : list (value F))
    (d : EMAAnomalyDetector F) :
  let p := fst (live_visualization vs d) in
  anomaly_x p = select (fst (feed d vs)) (seq 0 (length vs))
  /\ anomaly_y p = select (fst (feed d vs)) vs
  /\ length (anomaly_x p) = length (anomaly_y p)
  /\ snd (live_visualization vs d) = snd (feed d vs).
Proof.
  intros p. subst p. unfold live_visualization.
  rewrite live_visualization_from_spec by (cbn; lia).
  cbn [fst snd anomaly_x anomaly_y plot_start app].
  repeat split.
  generalize (fst (feed d vs)) as flags, 0 as idx.
  induction vs as [|v vs IH]; intros [|b flags] idx; try reflexivity.
  cbn [length seq select]. destruct b; cbn [length]; rewrite IH; reflexivity.
Qed.

(** X17. Anomalies are never evicted: the anomaly lists after a longer run
    extend those after a shorter one, while the deques keep 200 points. *)
Theorem anomalies_only_grow (vs ws : list (value F)) (d : EMAAnomalyDetector F) :
  exists more_x more_y,
    anomaly_x (fst (live_visualization (vs ++ ws) d))
    = anomaly_x (fst (live_visualization vs d)) ++ more_x
    /\ anomaly_y (fst (live_visualization (vs ++ ws) d))
       = anomaly_y (fst (live_visualization vs d)) ++ more_y.
Proof.
  unfold live_visualization.
  assert (Hsplit : forall (l : list (value F)) idx st,
            live_visualization_from idx (l ++ ws) st
            = live_visualization_from (idx + length l) ws
                (live_visualization_from idx l st)).
  { induction l as [|x l IH]; intros idx st; cbn [app live_visualization_from length].
    - rewrite Nat.add_0_r. reflexivity.
    - rewrite IH. f_equal. lia. }
  rewrite Hsplit.
  rewrite (live_visualization_from_spec vs) by (cbn; lia).
  rewrite live_visualization_from_spec
    by (cbn [data_x data_y]; rewrite lastn_length; lia).
  cbn [fst anomaly_x anomaly_y].
  eexists _, _. split; reflexivity.
Qed.

(** X18. [process_data_stream] prints what [live_visualization] marks: on
    the same values and from the same detector, the values printed as
    anomalies are the list [anomaly_y], and both leave the same detector. *)
Theorem process_reports_marked_anomalies (vs : list (value F))
    (d : EMAAnomalyDetector F) :
  fst (process_data_stream vs d) = anomaly_y (fst (live_visualization vs d))
  /\ snd (process_data_stream vs d) = snd (live_visualization vs d).
Proof.
  unfold live_visualization.
  rewrite live_visualization_from_spec by (cbn; lia).
  cbn [fst snd anomaly_y plot_start app].
  revert d. induction vs as [|v vs IH]; intros d; [split; reflexivity|].
  cbn [process_data_stream feed].
  destruct (update_ema v d) as [flag d1].
  destruct (IH d1) as [Hout Hdet].
  destruct (process_data_stream vs d1) as [out e1].
  destruct (feed d1 vs) as [bs e2]. cbn [fst snd select] in *.
  subst. destruct flag; split; reflexivity.
Qed.

End CallerProperties.

(** * The source of samples: [data_stream_simulation] *)

(** One round of the random sources the generator consults:
    [np.random.normal(0, 2)], [random.random()] and, used when the coin is
    below 0.05, [np.random.normal(30, 10)]. *)
Record draws : Type := mkDraws {
  noise : R;
  coin : R;
  jump : R
}.

(** [10 * np.sin(2 * np.pi * t / 50)], over the reals. *)
Definition seasonality (t : nat) : R :=
  (10 * sin (2 * PI * INR t / 50))%R.

(** The value computed in round [t] from the draws [w]. *)
Definition simulated_value (t : nat) (w : draws) : R :=
  let value := (50 + seasonality t + noise w)%R in
  if Rlt_dec (coin w) (5 / 100) then (value + jump w)%R else value.

(** The generator on a finite supply of draws, from time [t]: the values it
    yields.  A value [validate_data] rejects is dropped and the round is
    played again at the same [t] ([except DataStreamException: continue]);
    the pause between two values is not part of the model. *)
Fixpoint data_stream_simulation_from (t : nat) (ws : list draws)
    : list (value R) :=
  match ws with
  | [] => []
  | w :: ws' =>
      let value := PyNum (simulated_value t w) in
      match validate_data value with
      | Ok _ => value :: data_stream_simulation_from (S t) ws'
      | Raise _ => data_stream_simulation_from t ws'
      end
  end.

Definition data_stream_simulation (ws : list draws) : list (value R) :=
  data_stream_simulation_from 0 ws.

Section Simulation.
Local Open Scope R_scope.

Lemma seasonality_bound (t : nat) : -10 <= seasonality t <= 10.
Proof.
  unfold seasonality.
  pose proof (SIN_bound (2 * PI * INR t / 50)) as [Hlo Hhi]. lra.
Qed.

Lemma data_stream_simulation_from_spec (ws : list draws) :
  forall t,
    data_stream_simulation_from t ws
    = map (fun tw => PyNum (simulated_value (fst tw) (snd tw)))
        (combine (seq t (length ws)) ws).
Proof.
  induction ws as [|w ws IH]; intros t; [reflexivity|].
  cbn [data_stream_simulation_from validate_data is_number length seq combine map
       fst snd].
  rewrite IH. reflexivity.
Qed.

(** X19. The generator yields one value per round and never repeats a
    round: validation rejects nothing it computes, so the [k]-th value
    yielded is the one computed at time [t = k]. *)
Theorem stream_yields_every_round (ws : list draws) :
  length (data_stream_simulation ws) = length ws
  /\ forall k w,
       nth_error ws k = Some w ->
       nth_error (data_stream_simulation ws) k
       = Some (PyNum (simulated_value k w)).
Proof.
  unfold data_stream_simulation. rewrite data_stream_simulation_from_spec.
  split.
  - rewrite length_map, length_combine, length_seq. apply Nat.min_id.
  - intros k w Hk.
    assert (Hlt : (k < length ws)%nat)
      by (apply nth_error_Some; rewrite Hk; discriminate).
    rewrite nth_error_map.
    assert (Hc : forall t, nth_error (combine (seq t (length ws)) ws) k
                           = Some ((t + k)%nat, w)).
    { revert k Hk Hlt.
      induction ws as [|w0 ws IH]; intros k Hk Hlt t; [cbn in Hlt; lia|].
      destruct k as [|k]; cbn [length seq combine nth_error] in *.
      - injection Hk as ->. f_equal. f_equal. lia.
      - rewrite (IH k Hk ltac:(lia) (S t)). f_equal. f_equal. lia. }
    rewrite (Hc 0%nat). reflexivity.
Qed.

Lemma stream_yields_every_round_witness :
  nth_error (data_stream_simulation [mkDraws 0 1 0; mkDraws 1 1 0]) 1
  = Some (PyNum (simulated_value 1 (mkDraws 1 1 0))).
Proof.
  exact (proj2 (stream_yields_every_round [mkDraws 0 1 0; mkDraws 1 1 0])
           1%nat (mkDraws 1 1 0) eq_refl).
Defined.

(** X20. Without an injected anomaly (coin not below 0.05) the value stays
    within 10 of [50 + noise]: the seasonal term never exceeds its
    amplitude. *)
Theorem quiet_value_in_band (t : nat) (w : draws) :
  ~ coin w < 5 / 100 ->
  40 + noise w <= simulated_value t w <= 60 + noise w.
Proof.
  intros Hquiet. unfold simulated_value.
  destruct (Rlt_dec (coin w) (5 / 100)) as [Hc | _]; [contradiction|].
  pose proof (seasonality_bound t). lra.
Qed.

Lemma quiet_value_in_band_witness :
  40 + 0 <= simulated_value 7 (mkDraws 0 1 30) <= 60 + 0.
Proof.
  apply (quiet_value_in_band 7 (mkDraws 0 1 30)). cbn [coin]. lra.
Defined.

End Simulation.

(** * Rounding and overflow inside a call *)

(** X22. Where the square of the deviation raises, the call has already
    replaced the center and leaves the spread as it was; it returns
    [False].  In any arithmetic; in binary64 the square raises
    [OverflowError] for a finite deviation whose square is out of range. *)
Theorem overflow_leaves_center_only {F} `{Arith F} (a t c s v : F) (e : exn) :
  pow2 (sub v (add (mul a v) (mul (sub one a) c))) = Raise e ->
  update_ema (PyNum v)
    {| ema := PyNum c; alpha := PyNum a; std := PyNum s; threshold := PyNum t |}
  = (false,
     {| ema := PyNum (add (mul a v) (mul (sub one a) c)); alpha := PyNum a;
        std := PyNum s; threshold := PyNum t |}).
Proof.
  intros Hp. unfold update_ema. rewrite later_try. cbv zeta. rewrite Hp.
  destruct e; reflexivity.
Qed.

Lemma overflow_leaves_center_only_witness :
  update_ema (PyNum 0x1.dd55745cbb7edp+515%float) (initialized64 0.5 1 0 0)
  = (false,
     initialized64 0.5 1
       (0.5 * 0x1.dd55745cbb7edp+515 + (1 - 0.5) * 0)%float 0).
Proof.
  assert (Hp : float_pow2
                 (0x1.dd55745cbb7edp+515
                  - (0.5 * 0x1.dd55745cbb7edp+515 + (1 - 0.5) * 0))%float
               = Raise OverflowError) by (vm_compute; reflexivity).
  exact (@overflow_leaves_center_only float float_arith 0.5%float 1%float
           0%float 0%float 0x1.dd55745cbb7edp+515%float OverflowError Hp).
Defined.

(** X23. Rounding can flag a constant stream: in binary64 with
    [alpha = 0.1] and [threshold = 3], the second of two samples 183.0 moves
    the center to [0.1*183 + 0.9*183], one unit in the last place above
    183, the spread becomes the root of a tenth of the square of that
    deviation, the score is about -3.16 and the call returns [True]. *)
Theorem constant_stream_flagged :
  fst (feed (init (PyNum tenth) (PyNum 3%float))
         (map PyNum [183; 183]%float))
  = [false; true]
  /\ ema (snd (feed (init (PyNum tenth) (PyNum 3%float))
                 (map PyNum [183; 183]%float)))
     = PyNum 0x1.6e00000000001p+7%float.
Proof. split; vm_compute; reflexivity. Qed.
